(** * SWMM layer builder: a shallow embedding of [swmm_layer_builder.py]

    The module maps the attributes of an arbitrary vector layer into the
    fixed SWMM schema of one section.  The embedding below follows the
    Python source method by method:

    - Python values that can sit in an attribute table are the inductive
      [PyVal]; [py_eq] is Python's [==] on them and [py_in] the [in]
      operator on a list;
    - Python dictionaries used as maps are [gmap string _]; the one
      dictionary whose iteration order is observed (a section's entry of
      [def_qgis_fields_dict]) is the ordered list of its items;
    - the host (QGIS processing framework) is explicit: the parameters of a
      run, the feedback object and the output sink are records, and the
      methods run in a state-and-exception monad [M] over the [World] the
      host exposes (the sink's contents, the progress reports, the number of
      cancellation polls). *)

From Stdlib Require Import ZArith Floats.PrimFloat Floats.FloatOps Floats.SpecFloat.
From stdpp Require Import gmap strings list fin_maps.

#[local] Set Warnings "-inexact-float".


(** ** Python values *)

(** The values a QGIS attribute can hold once converted to Python: [None]
    (the NULL variant), booleans, integers, floats, strings, dates (Julian
    day) and times (milliseconds since midnight). *)
Inductive PyVal : Type :=
| PyNone
| PyBool (b : bool)
| PyInt (z : Z)
| PyFloat (x : float)
| PyStr (s : string)
| PyQDate (jd : Z)
| PyQTime (msecs : Z).

(** The exact value of an integer as a double, rounded to nearest even. *)
Definition float_of_int (z : Z) : float :=
  SF2Prim (binary_normalize prec emax z 0 false).

(** [int == float]: Python compares the exact values. *)
Definition int_eq_float (z : Z) (x : float) : bool :=
  match Prim2SF x with
  | S754_zero _ => (z =? 0)%Z
  | S754_finite s m e =>
      let mag := if s then Z.neg m else Z.pos m in
      match e with
      | Z0 => (z =? mag)%Z
      | Z.pos p => (z =? Z.shiftl mag (Z.pos p))%Z
      | Z.neg p => (Z.shiftl z (Z.pos p) =? mag)%Z
      end
  | S754_infinity _ | S754_nan => false
  end.

(** Python's [==].  [bool] is a subclass of [int], so [True == 1]; numbers
    never equal [None], strings, dates or times. *)
Definition py_eq (a b : PyVal) : bool :=
  match a, b with
  | PyNone, PyNone => true
  | PyBool x, PyBool y => Z.eqb (Z.b2z x) (Z.b2z y)
  | PyBool x, PyInt y => Z.eqb (Z.b2z x) y
  | PyInt x, PyBool y => Z.eqb x (Z.b2z y)
  | PyInt x, PyInt y => Z.eqb x y
  | PyBool x, PyFloat y => int_eq_float (Z.b2z x) y
  | PyFloat x, PyBool y => int_eq_float (Z.b2z y) x
  | PyInt x, PyFloat y => int_eq_float x y
  | PyFloat x, PyInt y => int_eq_float y x
  | PyFloat x, PyFloat y => PrimFloat.eqb x y
  | PyStr x, PyStr y => String.eqb x y
  | PyQDate x, PyQDate y => Z.eqb x y
  | PyQTime x, PyQTime y => Z.eqb x y
  | _, _ => false
  end.

(** [val in lst] on a Python list. *)
Definition py_in (val : PyVal) (lst : list PyVal) : bool :=
  existsb (py_eq val) lst.

(** Truthiness of a string ([if s:]) and of an integer ([if n:]). *)
Definition str_truthy (s : string) : bool :=
  match s with EmptyString => false | String _ _ => true end.

Definition int_truthy (n : Z) : bool := negb (n =? 0)%Z.

(** [int(x)] on a finite float: truncation towards zero.  A quotient of
    two feature counts is always finite; for the infinities and NaN, where
    Python's [int] has no value, the model yields 0. *)
Definition py_int (x : float) : Z :=
  match Prim2SF x with
  | S754_finite s m e =>
      let mag :=
        match e with
        | Z0 => Z.pos m
        | Z.pos p => Z.shiftl (Z.pos m) (Z.pos p)
        | Z.neg p => Z.shiftr (Z.pos m) (Z.pos p)
        end in
      if s then (- mag)%Z else mag
  | S754_zero _ | S754_infinity _ | S754_nan => 0%Z
  end.

(** A dictionary display [{k1: v1, ...}] or comprehension: items are
    stored left to right, a later key overriding an earlier equal one. *)
Definition py_dict {V : Type} (items : list (string * V)) : gmap string V :=
  foldl (λ d kv, <[kv.1 := kv.2]> d) ∅ items.

(** [d.get(k)] for a dictionary of Python values: [None] when absent. *)
Definition dict_get (d : gmap string PyVal) (k : string) : PyVal :=
  default PyNone (d !! k).

(** ** Exceptions, the host's world, and the monad *)

Inductive PyExc : Type :=
| QgsProcessingException (msg : string)
| KeyError (key : string)
| ZeroDivisionError.

(** [QVariant] type tags used for the output fields. *)
Inductive QVariantType : Type :=
| QVariant_Double | QVariant_String | QVariant_Int
| QVariant_Bool | QVariant_Date | QVariant_Time.

(** [QgsFields]: an ordered list of named, typed fields. *)
Abbreviation QgsFields := (list (string * QVariantType)).

(** [QgsFields.append] rejects a field whose name is already present. *)
Definition QgsFields_append (fields : QgsFields) (f : string * QVariantType)
  : QgsFields :=
  if bool_decide (f.1 ∈ fields.*1) then fields else fields ++ [f].

(** ** The host's objects *)

Section Host.

(** Geometries are opaque to the builder. *)
Context {Geometry : Type}.

(** An input feature: its attribute table (field name, value) in field
    order, and its geometry. *)
Record QgsFeature : Type := {
  f_attributes : list (string * PyVal);
  f_geometry : Geometry
}.

(** [feature.fields().names()] *)
Definition f_field_names (feature : QgsFeature) : list string :=
  (f_attributes feature).*1.

Record QgsVectorLayer : Type := {
  l_field_names : list string;       (* fields().names() *)
  l_wkbType : Z;                     (* wkbType() *)
  l_sourceCrs : string;              (* sourceCrs() *)
  l_featureCount : Z;                (* featureCount() *)
  l_features : list QgsFeature       (* getFeatures(), in delivery order *)
}.

(** An output feature as handed to the sink. *)
Record OutFeature : Type := {
  o_fields : QgsFields;
  o_geometry : Geometry;
  o_attributes : list PyVal
}.

(** What the sink was created with. *)
Record SinkSpec : Type := {
  sink_fields : QgsFields;
  sink_wkbType : Z;
  sink_crs : string
}.

(** The parameters of one run, as the host's accessors return them:
    [parameterAsVectorLayer] ([None] when no layer was given),
    [parameterAsString] per parameter id, and the destination id
    [parameterAsSink] hands out ([None] when it cannot create the sink). *)
Record Parameters : Type := {
  par_layer : option QgsVectorLayer;
  par_string : string → string;
  par_sink : option string
}.

(** The feedback object: the answer of the [n]-th call (from 0) of
    [isCanceled]. *)
Record Feedback : Type := {
  canceled_at : nat → bool
}.

(** The part of the host a run changes. *)
Record World : Type := {
  w_sink : option SinkSpec;          (* the sink, once created *)
  w_written : list OutFeature;       (* features added to the sink *)
  w_progress : list Z;               (* setProgress calls, in order *)
  w_polls : nat                      (* isCanceled calls so far *)
}.

Definition initial_world : World :=
  {| w_sink := None; w_written := []; w_progress := []; w_polls := 0 |}.

(** State and exception: a raised exception keeps the world reached. *)
Definition M (A : Type) : Type := World → (PyExc + A) * World.

#[export] Instance M_ret : MRet M := λ A a w, (inr a, w).
#[export] Instance M_bind : MBind M := λ A B f c w,
  match c w with
  | (inr a, w') => f a w'
  | (inl e, w') => (inl e, w')
  end.

Definition raise {A : Type} (e : PyExc) : M A := λ w, (inl e, w).

(** [d[k]] *)
Definition dict_getitem {V : Type} (d : gmap string V) (k : string) : M V :=
  match d !! k with
  | Some v => mret v
  | None => raise (KeyError k)
  end.

(** [feature[name]]: the attribute of the first field of that name. *)
Fixpoint attribute_lookup (name : string) (attrs : list (string * PyVal))
  : option PyVal :=
  match attrs with
  | [] => None
  | (n, v) :: rest =>
      if String.eqb n name then Some v else attribute_lookup name rest
  end.

Definition feature_getitem (feature : QgsFeature) (name : string) : M PyVal :=
  match attribute_lookup name (f_attributes feature) with
  | Some v => mret v
  | None => raise (KeyError name)
  end.

(** Host calls that touch the world. *)
Definition parameterAsSink (parameters : Parameters) (fields : QgsFields)
    (wkb : Z) (crs : string) : M (option string) := λ w,
  match par_sink parameters with
  | Some dest_id =>
      (inr (Some dest_id),
       {| w_sink := Some {| sink_fields := fields; sink_wkbType := wkb;
                            sink_crs := crs |};
          w_written := w_written w; w_progress := w_progress w;
          w_polls := w_polls w |})
  | None => (inr None, w)
  end.

Definition addFeature (out_feat : OutFeature) : M unit := λ w,
  (inr tt,
   {| w_sink := w_sink w; w_written := w_written w ++ [out_feat];
      w_progress := w_progress w; w_polls := w_polls w |}).

Definition isCanceled (feedback : Feedback) : M bool := λ w,
  (inr (canceled_at feedback (w_polls w)),
   {| w_sink := w_sink w; w_written := w_written w;
      w_progress := w_progress w; w_polls := S (w_polls w) |}).

Definition setProgress (p : Z) : M unit := λ w,
  (inr tt,
   {| w_sink := w_sink w; w_written := w_written w;
      w_progress := w_progress w ++ [p]; w_polls := w_polls w |}).

(** [a / b] on integers: a zero divisor raises, otherwise the quotient as
    a double. *)
Definition py_truediv (a b : Z) : M float :=
  if (b =? 0)%Z then raise ZeroDivisionError
  else mret (PrimFloat.div (float_of_int a) (float_of_int b)).

End Host.

Arguments QgsFeature Geometry : clear implicits.
Arguments QgsVectorLayer Geometry : clear implicits.
Arguments OutFeature Geometry : clear implicits.
Arguments Parameters Geometry : clear implicits.
Arguments World Geometry : clear implicits.
Arguments M Geometry A : clear implicits.

Arguments PyInt z%_Z.
Arguments PyFloat x%_float.
Arguments PyQDate jd%_Z.
Arguments PyQTime msecs%_Z.

(** ** The module [swmm_layer_builder] *)

(** The algorithm object: [__init__] stores its arguments and the mapping
    slots [(param_id, label, target_field, required)] of the section. *)
Record SwmmLayerBuilderAlgorithm : Type := {
  section_key : string;
  _display_name : string;
  geom_type : string;
  field_params : list (string * string * string * bool)
}.

(** Which SWMM fields can be mapped per section. *)
Definition _field_definitions (section : string)
  : list (string * string * string * bool) :=
  if (section =? "JUNCTIONS")%string then
   [("NAME_FIELD", "Name field", "Name", true);
    ("ELEV_FIELD", "Elevation field", "Elevation", true);
    ("MAXDEPTH_FIELD", "MaxDepth field", "MaxDepth", true);
    ("INITDEPTH_FIELD", "InitDepth field", "InitDepth", false);
    ("SURDEPTH_FIELD", "SurDepth field", "SurDepth", false);
    ("APONDED_FIELD", "Aponded field", "Aponded", false)]
  else
  if (section =? "OUTFALLS")%string then
   [("NAME_FIELD", "Name field", "Name", true);
    ("ELEV_FIELD", "Elevation field", "Elevation", true);
    ("TYPE_FIELD", "Type field", "Type", true);
    ("FIXED_FIELD", "FixedStage field", "FixedStage", false);
    ("CURVE_FIELD", "Curve_TS field", "Curve_TS", false);
    ("FLAP_FIELD", "FlapGate field", "FlapGate", false);
    ("ROUTETO_FIELD", "RouteTo field", "RouteTo", false)]
  else
  if (section =? "RAINGAGES")%string then
   [("NAME_FIELD", "Name field", "Name", true);
    ("FORMAT_FIELD", "Format field", "Format", true);
    ("INTERVAL_FIELD", "Interval field", "Interval", true);
    ("SCF_FIELD", "SCF field", "SCF", false);
    ("DATASRC_FIELD", "DataSource field", "DataSource", false);
    ("SERIES_FIELD", "SeriesName field", "SeriesName", false);
    ("FILE_FIELD", "FileName field", "FileName", false);
    ("STATION_FIELD", "StationID field", "StationID", false);
    ("RAINUNITS_FIELD", "RainUnits field", "RainUnits", false)]
  else
  if (section =? "STORAGE")%string then
   [("NAME_FIELD", "Name field", "Name", true);
    ("ELEV_FIELD", "Elevation field", "Elevation", true);
    ("MAXDEPTH_FIELD", "MaxDepth field", "MaxDepth", true);
    ("INITDEPTH_FIELD", "InitDepth field", "InitDepth", false);
    ("TYPE_FIELD", "Type field", "Type", false);
    ("CURVE_FIELD", "Curve field", "Curve", false);
    ("COEFF_FIELD", "Coeff field", "Coeff", false);
    ("EXP_FIELD", "Exponent field", "Exponent", false);
    ("CONST_FIELD", "Constant field", "Constant", false);
    ("MAJORAX_FIELD", "MajorAxis field", "MajorAxis", false);
    ("MINORAX_FIELD", "MinorAxis field", "MinorAxis", false);
    ("SIDESLOPE_FIELD", "SideSlope field", "SideSlope", false);
    ("SURFHEIGHT_FIELD", "SurfHeight field", "SurfHeight", false);
    ("SURDEPTH_FIELD", "SurDepth field", "SurDepth", false);
    ("FEVAP_FIELD", "Fevap field", "Fevap", false);
    ("PSI_FIELD", "Psi field", "Psi", false);
    ("KSAT_FIELD", "Ksat field", "Ksat", false);
    ("IMD_FIELD", "IMD field", "IMD", false)]
  else
  if (section =? "CONDUITS")%string then
   [("NAME_FIELD", "Name field", "Name", true);
    ("FROM_FIELD", "FromNode field", "FromNode", true);
    ("TO_FIELD", "ToNode field", "ToNode", true);
    ("LENGTH_FIELD", "Length field", "Length", true);
    ("ROUGH_FIELD", "Roughness field", "Roughness", false);
    ("INOFF_FIELD", "InOffset field", "InOffset", false);
    ("OUTOFF_FIELD", "OutOffset field", "OutOffset", false);
    ("INITFLOW_FIELD", "InitFlow field", "InitFlow", false);
    ("MAXFLOW_FIELD", "MaxFlow field", "MaxFlow", false);
    ("XSECTSHAPE_FIELD", "XsectShape field", "XsectShape", false);
    ("GEOM1_FIELD", "Geom1 field", "Geom1", false);
    ("GEOM2_FIELD", "Geom2 field", "Geom2", false);
    ("GEOM3_FIELD", "Geom3 field", "Geom3", false);
    ("GEOM4_FIELD", "Geom4 field", "Geom4", false);
    ("BARRELS_FIELD", "Barrels field", "Barrels", false);
    ("CULVERT_FIELD", "Culvert field", "Culvert", false);
    ("SHPTRNS_FIELD", "Shp_Trnsct field", "Shp_Trnsct", false);
    ("KENTRY_FIELD", "Kentry field", "Kentry", false);
    ("KEXIT_FIELD", "Kexit field", "Kexit", false);
    ("KAVG_FIELD", "Kavg field", "Kavg", false);
    ("FLAP_FIELD", "FlapGate field", "FlapGate", false);
    ("SEEP_FIELD", "Seepage field", "Seepage", false)]
  else
  if (section =? "ORIFICES")%string then
   [("NAME_FIELD", "Name field", "Name", true);
    ("FROM_FIELD", "FromNode field", "FromNode", true);
    ("TO_FIELD", "ToNode field", "ToNode", true);
    ("TYPE_FIELD", "Type field", "Type", true);
    ("INOFF_FIELD", "InOffset field", "InOffset", false);
    ("QCOEFF_FIELD", "Qcoeff field", "Qcoeff", false);
    ("FLAP_FIELD", "FlapGate field", "FlapGate", false);
    ("CLOSETIME_FIELD", "CloseTime field", "CloseTime", false);
    ("XSECTSHAPE_FIELD", "XsectShape field", "XsectShape", false);
    ("HEIGHT_FIELD", "Height field", "Height", false);
    ("WIDTH_FIELD", "Width field", "Width", false)]
  else
  if (section =? "PUMPS")%string then
   [("NAME_FIELD", "Name field", "Name", true);
    ("FROM_FIELD", "FromNode field", "FromNode", true);
    ("TO_FIELD", "ToNode field", "ToNode", true);
    ("CURVE_FIELD", "PumpCurve field", "PumpCurve", true);
    ("STATUS_FIELD", "Status field", "Status", false);
    ("STARTUP_FIELD", "Startup field", "Startup", false);
    ("SHUTOFF_FIELD", "Shutoff field", "Shutoff", false)]
  else
  if (section =? "WEIRS")%string then
   [("NAME_FIELD", "Name field", "Name", true);
    ("FROM_FIELD", "FromNode field", "FromNode", true);
    ("TO_FIELD", "ToNode field", "ToNode", true);
    ("TYPE_FIELD", "Type field", "Type", true);
    ("CREST_FIELD", "CrestHeigh field", "CrestHeigh", false);
    ("QCOEFF_FIELD", "Qcoeff field", "Qcoeff", false);
    ("FLAP_FIELD", "FlapGate field", "FlapGate", false);
    ("ENDCONTR_FIELD", "EndContrac field", "EndContrac", false);
    ("ENDCOEFF_FIELD", "EndCoeff field", "EndCoeff", false);
    ("SURCH_FIELD", "Surcharge field", "Surcharge", false);
    ("ROADWIDTH_FIELD", "RoadWidth field", "RoadWidth", false);
    ("ROADSURF_FIELD", "RoadSurf field", "RoadSurf", false);
    ("COEFFCURVE_FIELD", "CoeffCurve field", "CoeffCurve", false);
    ("HEIGHT_FIELD", "Height field", "Height", false);
    ("LENGTH_FIELD", "Length field", "Length", false);
    ("SIDESLOPE_FIELD", "SideSlope field", "SideSlope", false)]
  else
   [].


Definition new_SwmmLayerBuilderAlgorithm
    (section_key display_name geom_type : string)
  : SwmmLayerBuilderAlgorithm :=
  {| section_key := section_key;
     _display_name := display_name;
     geom_type := geom_type;
     field_params := _field_definitions section_key |}.

(** The literal [type_map] of [processAlgorithm]. *)
Definition type_map : gmap string QVariantType :=
  py_dict
    [("Double", QVariant_Double);
     ("String", QVariant_String);
     ("Int", QVariant_Int);
     ("Bool", QVariant_Bool);
     ("Date", QVariant_Date);
     ("Time", QVariant_Time)].

Section Builder.

Context {Geometry : Type}.

(** [QCoreApplication.translate], supplied by the host. *)
Variable translate : string → string → string.

(** The Schema Registry [def_qgis_fields_dict] of module [g_s_defaults]:
    section name to the ordered items (field name, type name) of the
    section's dictionary. *)
Variable def_qgis_fields_dict : gmap string (list (string * string)).

Definition _tr (message : string) : string :=
  translate "SwmmLayerBuilder" message.

(** Fallback values when a field is missing or empty in the source. *)
Definition _defaults_for_section (section : string)
  : M Geometry (gmap string PyVal) :=
  if (section =? "SUBCATCHMENTS")%string then
    mret (py_dict
     [("Name", PyStr "");
      ("RainGage", PyStr "*");
      ("Outlet", PyStr "");
      ("Area", PyInt 0);
      ("Imperv", PyInt 0);
      ("Width", PyInt 0);
      ("Slope", PyFloat 0.5);
      ("CurbLen", PyInt 0);
      ("SnowPack", PyStr "");
      ("N_Imperv", PyFloat 0.01);
      ("N_Perv", PyFloat 0.1);
      ("S_Imperv", PyFloat 1.8);
      ("S_Perv", PyInt 3);
      ("PctZero", PyInt 0);
      ("RouteTo", PyStr "OUTLET");
      ("PctRouted", PyInt 100);
      ("InfMethod", PyStr "");
      ("SuctHead", PyNone);
      ("Conductiv", PyNone);
      ("InitDef", PyNone);
      ("MaxRate", PyNone);
      ("MinRate", PyNone);
      ("Decay", PyNone);
      ("DryTime", PyNone);
      ("MaxInf", PyNone);
      ("CurveNum", PyNone)])
  else
  if (section =? "JUNCTIONS")%string then
    mret (py_dict
     [("Name", PyStr "");
      ("Elevation", PyInt 0);
      ("MaxDepth", PyInt 0);
      ("InitDepth", PyInt 0);
      ("SurDepth", PyInt 0);
      ("Aponded", PyInt 0)])
  else
  if (section =? "OUTFALLS")%string then
    mret (py_dict
     [("Name", PyStr "");
      ("Elevation", PyInt 0);
      ("Type", PyStr "FREE");
      ("FixedStage", PyNone);
      ("Curve_TS", PyStr "");
      ("FlapGate", PyStr "");
      ("RouteTo", PyStr "")])
  else
  if (section =? "RAINGAGES")%string then
    mret (py_dict
     [("Name", PyStr "");
      ("Format", PyStr "");
      ("Interval", PyStr "");
      ("SCF", PyFloat 1.0);
      ("DataSource", PyStr "");
      ("SeriesName", PyStr "");
      ("FileName", PyStr "");
      ("StationID", PyStr "");
      ("RainUnits", PyStr "")])
  else
  if (section =? "STORAGE")%string then
    fields ← dict_getitem def_qgis_fields_dict "STORAGE";
    mret (py_dict
      (map (λ kv, (kv.1, if (kv.2 =? "Double")%string then PyInt 0 else PyStr ""))
           fields))
  else
  if (section =? "CONDUITS")%string then
    mret (py_dict
     [("Name", PyStr "");
      ("FromNode", PyStr "");
      ("ToNode", PyStr "");
      ("Length", PyInt 0);
      ("Roughness", PyFloat 0.01);
      ("InOffset", PyInt 0);
      ("OutOffset", PyInt 0);
      ("InitFlow", PyInt 0);
      ("MaxFlow", PyInt 0);
      ("XsectShape", PyStr "");
      ("Geom1", PyInt 0);
      ("Geom2", PyInt 0);
      ("Geom3", PyInt 0);
      ("Geom4", PyInt 0);
      ("Barrels", PyInt 1);
      ("Culvert", PyStr "");
      ("Shp_Trnsct", PyStr "");
      ("Kentry", PyInt 0);
      ("Kexit", PyInt 0);
      ("Kavg", PyInt 0);
      ("FlapGate", PyStr "");
      ("Seepage", PyInt 0)])
  else
  if (section =? "ORIFICES")%string then
    mret (py_dict
     [("Name", PyStr "");
      ("FromNode", PyStr "");
      ("ToNode", PyStr "");
      ("Type", PyStr "");
      ("InOffset", PyInt 0);
      ("Qcoeff", PyInt 0);
      ("FlapGate", PyStr "");
      ("CloseTime", PyInt 0);
      ("XsectShape", PyStr "");
      ("Height", PyInt 0);
      ("Width", PyInt 0)])
  else
  if (section =? "PUMPS")%string then
    mret (py_dict
     [("Name", PyStr "");
      ("FromNode", PyStr "");
      ("ToNode", PyStr "");
      ("PumpCurve", PyStr "");
      ("Status", PyStr "");
      ("Startup", PyInt 0);
      ("Shutoff", PyInt 0)])
  else
  if (section =? "WEIRS")%string then
    mret (py_dict
     [("Name", PyStr "");
      ("FromNode", PyStr "");
      ("ToNode", PyStr "");
      ("Type", PyStr "");
      ("CrestHeigh", PyInt 0);
      ("Qcoeff", PyInt 0);
      ("FlapGate", PyStr "");
      ("EndContrac", PyInt 0);
      ("EndCoeff", PyInt 0);
      ("Surcharge", PyStr "");
      ("RoadWidth", PyInt 0);
      ("RoadSurf", PyStr "");
      ("CoeffCurve", PyStr "");
      ("Height", PyInt 0);
      ("Length", PyInt 0);
      ("SideSlope", PyInt 0)])
  else
    fields ← dict_getitem def_qgis_fields_dict section;
    mret (py_dict (map (λ k, (k, PyNone)) fields.*1)).

(** Get a value from a feature field, falling back to the default when
    missing or empty.  [field_name] is the result of [field_map.get]:
    [None] when the target field has no slot. *)
Definition _value_from_feature (feature : QgsFeature Geometry)
    (field_name : option string) (default_val : PyVal) : M Geometry PyVal :=
  match field_name with
  | Some name =>
      if str_truthy name && bool_decide (name ∈ f_field_names feature) then
        val ← feature_getitem feature name;
        if negb (py_in val [PyNone; PyStr ""]) then mret val
        else mret default_val
      else mret default_val
  | None => mret default_val
  end.

(** The first loop of [processAlgorithm]: one entry of [field_map] per
    slot, the operator's choice or, when that is empty and the layer has a
    field named like the target, the target's name. *)
Definition resolve_slot (parameters : Parameters Geometry)
    (layer_field_names : list string)
    (field_map : gmap string string)
    (slot : string * string * string * bool) : gmap string string :=
  let '(param_id, _, target_field, _) := slot in
  let param_val := par_string parameters param_id in
  let param_val :=
    if negb (str_truthy param_val)
       && bool_decide (target_field ∈ layer_field_names)
    then target_field else param_val in
  <[target_field := param_val]> field_map.

Definition build_field_map (self : SwmmLayerBuilderAlgorithm)
    (parameters : Parameters Geometry) (layer_field_names : list string)
  : gmap string string :=
  foldl (resolve_slot parameters layer_field_names) ∅ (field_params self).

(** The second loop: the output fields, typed through [type_map]. *)
Fixpoint build_target_fields (items : list (string * string))
    (target_fields : QgsFields) : M Geometry QgsFields :=
  match items with
  | [] => mret target_fields
  | (name, typ) :: rest =>
      t ← dict_getitem type_map typ;
      build_target_fields rest (QgsFields_append target_fields (name, t))
  end.

(** [int((idx + 1) / total * 100)] *)
Definition progress_percent (idx : nat) (total : Z) : M Geometry Z :=
  q ← py_truediv (Z.of_nat idx + 1) total;
  mret (py_int (PrimFloat.mul q (float_of_int 100))).

(** The list comprehension building one row: a value per key of the
    section's registry entry, in the entry's order. *)
Definition row_attributes (feature : QgsFeature Geometry)
    (field_map : gmap string string) (defaults : gmap string PyVal)
    (target_fields_def : list (string * string)) : M Geometry (list PyVal) :=
  mapM (λ field,
          _value_from_feature feature (field_map !! field)
                              (dict_get defaults field))
       target_fields_def.*1.

(** The feature loop, from index [idx] on; [break] ends it. *)
Fixpoint feature_loop (feedback : Feedback)
    (target_fields_def : list (string * string))
    (target_fields : QgsFields)
    (field_map : gmap string string) (defaults : gmap string PyVal)
    (total : Z) (idx : nat) (features : list (QgsFeature Geometry))
  : M Geometry unit :=
  match features with
  | [] => mret tt
  | feature :: rest =>
      attrs ← row_attributes feature field_map defaults target_fields_def;
      let out_feat :=
        {| o_fields := target_fields;
           o_geometry := f_geometry feature;
           o_attributes := attrs |} in
      addFeature out_feat;;
      canceled ← @isCanceled Geometry feedback;
      if (canceled : bool) then mret tt
      else
        (if int_truthy total then
           p ← progress_percent idx total; @setProgress Geometry p
         else mret tt);;
        feature_loop feedback target_fields_def target_fields field_map
                     defaults total (S idx) rest
  end.

(** Create an output layer with SWMM fields, mapping user-selected or
    auto-matched fields.  The result is the dictionary [{OUTPUT: dest_id}]. *)
Definition processAlgorithm (self : SwmmLayerBuilderAlgorithm)
    (parameters : Parameters Geometry) (feedback : Feedback)
  : M Geometry (gmap string string) :=
  match par_layer parameters with
  | None => raise (QgsProcessingException (_tr "Input layer is required."))
  | Some input_layer =>
      let layer_field_names := l_field_names input_layer in
      let field_map := build_field_map self parameters layer_field_names in
      target_fields_def ← dict_getitem def_qgis_fields_dict (section_key self);
      target_fields ← build_target_fields target_fields_def [];
      dest ← parameterAsSink parameters target_fields
               (l_wkbType input_layer) (l_sourceCrs input_layer);
      match (dest : option string) with
      | None =>
          raise (QgsProcessingException (_tr "Could not create output sink."))
      | Some dest_id =>
          defaults ← _defaults_for_section (section_key self);
          let total := l_featureCount input_layer in
          feature_loop feedback target_fields_def target_fields field_map
                       defaults total 0 (l_features input_layer);;
          mret (py_dict [("OUTPUT", dest_id)])
      end
  end.

End Builder.

(** ** Notions used to state the properties *)

(** The spec's Row Transform (section 4.5), written from its words: the
    value read through a selection, when there is one, the named field is
    present on the feature and the value is neither null nor the empty
    string. *)
Definition usable_source_value {Geometry : Type}
    (feature : QgsFeature Geometry) (selection : option string)
  : option PyVal :=
  match selection with
  | None | Some "" => None
  | Some name =>
      match attribute_lookup name (f_attributes feature) with
      | None | Some PyNone | Some (PyStr "") => None
      | Some v => Some v
      end
  end.

(** ... and the attribute list: per target field in schema order, the
    usable source value or else the default. *)
Definition transform {Geometry : Type} (feature : QgsFeature Geometry)
    (selections : gmap string string) (defaults : gmap string PyVal)
    (schema : list (string * string)) : list PyVal :=
  map (λ field,
         default (dict_get defaults field)
                 (usable_source_value feature (selections !! field)))
      schema.*1.

(** The output feature built from an input feature. *)
Definition out_feature {Geometry : Type} (target_fields : QgsFields)
    (selections : gmap string string) (defaults : gmap string PyVal)
    (schema : list (string * string)) (feature : QgsFeature Geometry)
  : OutFeature Geometry :=
  {| o_fields := target_fields;
     o_geometry := f_geometry feature;
     o_attributes := transform feature selections defaults schema |}.

(** The output fields of a registry entry, when every type name is a key
    of [type_map]. *)
Fixpoint declared_fields (items : list (string * string)) (acc : QgsFields)
  : option QgsFields :=
  match items with
  | [] => Some acc
  | (name, typ) :: rest =>
      match type_map !! typ with
      | Some t => declared_fields rest (QgsFields_append acc (name, t))
      | None => None
      end
  end.

(** How many features the loop writes when the next poll of [isCanceled]
    is number [polls]: it stops after the first feature whose poll
    answers true. *)
Fixpoint features_written (feedback : Feedback) (polls : nat) (n : nat)
  : nat :=
  match n with
  | O => 0
  | S n' =>
      if canceled_at feedback polls then 1
      else S (features_written feedback (S polls) n')
  end.

(** How many of these are followed by a progress report. *)
Fixpoint features_reported (feedback : Feedback) (polls : nat) (n : nat)
  : nat :=
  match n with
  | O => 0
  | S n' =>
      if canceled_at feedback polls then 0
      else S (features_reported feedback (S polls) n')
  end.

(** The percentage reported after feature [idx]. *)
Definition progress_value (idx : nat) (total : Z) : Z :=
  py_int (PrimFloat.mul
            (PrimFloat.div (float_of_int (Z.of_nat idx + 1))
                           (float_of_int total))
            (float_of_int 100)).

Definition progress_reports (total : Z) (idx : nat) (count : nat) : list Z :=
  if int_truthy total then map (λ i, progress_value i total) (seq idx count)
  else [].

(** The sections [_defaults_for_section] has a literal table for. *)
Definition bespoke_sections : list string :=
  ["SUBCATCHMENTS"; "JUNCTIONS"; "OUTFALLS"; "RAINGAGES";
   "CONDUITS"; "ORIFICES"; "PUMPS"; "WEIRS"].

(** The spec's numeric semantic types (number-real, number-integer) as
    type names of the registry. *)
Definition numeric_type (typ : string) : bool :=
  (typ =? "Double")%string || (typ =? "Int")%string.

(** The world a completed run leaves behind. *)
Definition world_after_run {Geometry : Type} (w : World Geometry)
    (feedback : Feedback) (layer : QgsVectorLayer Geometry)
    (target_fields : QgsFields) (selections : gmap string string)
    (defaults : gmap string PyVal) (schema : list (string * string))
  : World Geometry :=
  let n := features_written feedback (w_polls w) (length (l_features layer)) in
  let r := features_reported feedback (w_polls w) (length (l_features layer)) in
  {| w_sink := Some {| sink_fields := target_fields;
                       sink_wkbType := l_wkbType layer;
                       sink_crs := l_sourceCrs layer |};
     w_written := w_written w
                  ++ map (out_feature target_fields selections defaults schema)
                         (take n (l_features layer));
     w_progress := w_progress w
                   ++ progress_reports (l_featureCount layer) 0 r;
     w_polls := w_polls w + n |}.

(** The spec's Field Resolution (section 4.4), written from its words: a
    non-empty choice is used as it is; an empty one binds to the field
    named exactly like the target when the layer has one, and otherwise
    the selection stays unset. *)
Definition resolve (operator_choice target_field : string)
    (input_field_names : list string) : option string :=
  match operator_choice with
  | "" =>
      if bool_decide (target_field ∈ input_field_names)
      then Some target_field else None
  | _ => Some operator_choice
  end.

(** The features of the input layer, none when no layer was given. *)
Definition input_features {Geometry : Type} (parameters : Parameters Geometry)
  : list (QgsFeature Geometry) :=
  match par_layer parameters with
  | Some layer => l_features layer
  | None => []
  end.

(** The configuration-error rule as the spec words it: an unknown section,
    or a declared target field without an entry in the defaults, make the
    run fail before anything is written. *)
Definition missing_configuration_is_fatal : Prop :=
  ∀ (translate : string → string → string)
    (registry : gmap string (list (string * string)))
    (self : SwmmLayerBuilderAlgorithm) (parameters : Parameters string)
    (feedback : Feedback),
    (registry !! section_key self = None
     ∨ ∃ schema field defaults,
         registry !! section_key self = Some schema
         ∧ field ∈ schema.*1
         ∧ (_defaults_for_section registry (section_key self)
              (@initial_world string)).1 = inr defaults
         ∧ defaults !! field = None) →
    ∃ e, processAlgorithm translate registry self parameters feedback
           initial_world = (inl e, initial_world).

(** The fallback policy as the spec words it: in every section without a
    literal table, numeric fields default to 0 and all others to the empty
    string. *)
Definition fallback_policy_everywhere : Prop :=
  ∀ (registry : gmap string (list (string * string))) (section : string)
    (schema : list (string * string)),
    section ∉ bespoke_sections →
    registry !! section = Some schema →
    NoDup schema.*1 →
    ∃ defaults,
      (_defaults_for_section registry section (@initial_world string)).1
      = inr defaults
      ∧ ∀ field typ, (field, typ) ∈ schema →
          defaults !! field
          = Some (if numeric_type typ then PyInt 0 else PyStr "").

(** The cancellation rule as the spec words it, for any number [k] of
    features after which the cancellation is seen, none included: the sink
    then holds exactly [k] features. *)
Definition cancellation_after_k_leaves_k_features : Prop :=
  ∀ (translate : string → string → string)
    (registry : gmap string (list (string * string)))
    (self : SwmmLayerBuilderAlgorithm) (parameters : Parameters string)
    (feedback : Feedback) (layer : QgsVectorLayer string)
    (schema : list (string * string)) (dest_id : string) (k : nat),
    par_layer parameters = Some layer →
    registry !! section_key self = Some schema →
    Forall (λ typ, is_Some (type_map !! typ)) schema.*2 →
    par_sink parameters = Some dest_id →
    k ≤ length (l_features layer) →
    (∀ j, S j < k → canceled_at feedback j = false) →
    canceled_at feedback (pred k) = true →
    ∃ w',
      processAlgorithm translate registry self parameters feedback
        initial_world
      = (inr (py_dict [("OUTPUT", dest_id)]), w')
      ∧ length (w_written w') = k.

(** ** Sample data *)

Module Sample.

(** No translator installed: [translate] returns the source text. *)
Definition translate (context message : string) : string := message.

(** A registry with the entries of four sections, each declaring the
    target fields of the section's mapping slots. *)
Definition junctions : list (string * string) :=
  [("Name", "String"); ("Elevation", "Double"); ("MaxDepth", "Double");
   ("InitDepth", "Double"); ("SurDepth", "Double"); ("Aponded", "Double")].

Definition raingages : list (string * string) :=
  [("Name", "String"); ("Format", "String"); ("Interval", "String");
   ("SCF", "Double"); ("DataSource", "String"); ("SeriesName", "String");
   ("FileName", "String"); ("StationID", "String"); ("RainUnits", "String")].

Definition storage : list (string * string) :=
  [("Name", "String"); ("Elevation", "Double"); ("MaxDepth", "Double");
   ("InitDepth", "Double"); ("Type", "String"); ("Curve", "String");
   ("Coeff", "Double"); ("Exponent", "Double"); ("Constant", "Double")].

Definition outlets : list (string * string) :=
  [("Name", "String"); ("FromNode", "String"); ("ToNode", "String");
   ("InOffset", "Double")].

Definition registry : gmap string (list (string * string)) :=
  py_dict [("JUNCTIONS", junctions); ("RAINGAGES", raingages);
           ("STORAGE", storage); ("OUTLETS", outlets)].

(** The same registry, the junctions carrying one more declared field. *)
Definition junctions_annotated : list (string * string) :=
  junctions ++ [("Annotation", "String")].

Definition registry_annotated : gmap string (list (string * string)) :=
  py_dict [("JUNCTIONS", junctions_annotated); ("RAINGAGES", raingages)].

Definition junctions_builder : SwmmLayerBuilderAlgorithm :=
  new_SwmmLayerBuilderAlgorithm "JUNCTIONS" "Junctions" "Point".

Definition raingages_builder : SwmmLayerBuilderAlgorithm :=
  new_SwmmLayerBuilderAlgorithm "RAINGAGES" "Rain gages" "Point".

(** Geometries as WKT text. *)
Definition node (name : string) (elevation : PyVal) (wkt : string)
  : QgsFeature string :=
  {| f_attributes := [("id", PyStr name); ("Elevation", elevation);
                      ("MaxDepth", PyStr ""); ("InitDepth", PyNone)];
     f_geometry := wkt |}.

Definition ten_nodes : list (QgsFeature string) :=
  [node "n0" (PyFloat 5.2) "POINT(0 0)"; node "n1" (PyFloat 5.1) "POINT(1 0)";
   node "n2" (PyInt 5) "POINT(2 0)"; node "n3" (PyFloat 4.9) "POINT(3 0)";
   node "n4" (PyFloat 4.8) "POINT(4 0)"; node "n5" PyNone "POINT(5 0)";
   node "n6" (PyFloat 4.6) "POINT(6 0)"; node "n7" (PyFloat 4.5) "POINT(7 0)";
   node "n8" (PyFloat 4.4) "POINT(8 0)"; node "n9" (PyFloat 4.3) "POINT(9 0)"].

Definition nodes_layer (features : list (QgsFeature string))
  : QgsVectorLayer string :=
  {| l_field_names := ["id"; "Elevation"; "MaxDepth"; "InitDepth"];
     l_wkbType := 1;
     l_sourceCrs := "EPSG:25832";
     l_featureCount := Z.of_nat (length features);
     l_features := features |}.

(** The operator maps the name slot to column [id] and leaves the others
    empty. *)
Definition name_from_id (param_id : string) : string :=
  if (param_id =? "NAME_FIELD")%string then "id" else "".

Definition nodes_run (features : list (QgsFeature string))
  : Parameters string :=
  {| par_layer := Some (nodes_layer features);
     par_string := name_from_id;
     par_sink := Some "memory:junctions" |}.

Definition no_layer_run : Parameters string :=
  {| par_layer := None; par_string := name_from_id;
     par_sink := Some "memory:junctions" |}.

Definition no_sink_run : Parameters string :=
  {| par_layer := Some (nodes_layer ten_nodes); par_string := name_from_id;
     par_sink := None |}.

Definition never_canceled : Feedback := {| canceled_at := λ _, false |}.

(** Cancellation requested while the third feature is being handled: the
    polls after the first two features answer false, every later one
    true. *)
Definition canceled_from_third : Feedback :=
  {| canceled_at := λ n, (2 <=? n)%nat |}.

(** A rain gage whose scale-factor column is null, and one where it holds
    0.8. *)
Definition gage (scf : PyVal) : QgsFeature string :=
  {| f_attributes := [("station", PyStr "G1"); ("scf_factor", scf)];
     f_geometry := "POINT(3 4)" |}.

Definition scf_selection : gmap string string :=
  py_dict [("Name", "station"); ("SCF", "scf_factor")].

(** The junction of the spec's scenario. *)
Definition scenario_junction : QgsFeature string :=
  {| f_attributes := [("Elevation", PyFloat 5.2); ("MaxDepth", PyStr "");
                      ("InitDepth", PyNone)];
     f_geometry := "POINT(1 2)" |}.

(** The defaults of RAINGAGES and JUNCTIONS, as [_defaults_for_section]
    returns them. *)
Definition defaults_of (section : string) : gmap string PyVal :=
  match (_defaults_for_section registry section (@initial_world string)).1 with
  | inr defaults => defaults
  | inl _ => ∅
  end.

Definition empty_run : Parameters string := nodes_run [].

End Sample.

(** ** Parameter declaration ([initAlgorithm]) *)

(** [QgsProcessing.SourceType] members used by the module. *)
Inductive SourceType : Type :=
| TypeVectorPoint | TypeVectorLine | TypeVectorPolygon.

(** The parameter definitions the module constructs, with the arguments
    it passes. *)
Inductive QgsProcessingParameterDefinition : Type :=
| QgsProcessingParameterVectorLayer
    (name description : string) (types : list SourceType)
| QgsProcessingParameterVectorDestination (name description : string)
| QgsProcessingParameterField
    (name description parentLayerParameterName : string)
    (optional : bool) (defaultValue : string).

Definition parameter_name (d : QgsProcessingParameterDefinition) : string :=
  match d with
  | QgsProcessingParameterVectorLayer name _ _ => name
  | QgsProcessingParameterVectorDestination name _ => name
  | QgsProcessingParameterField name _ _ _ _ => name
  end.

(** [addParameter]: the host keeps the definitions in order and rejects
    one whose name is already declared. *)
Definition addParameter (declared : list QgsProcessingParameterDefinition)
    (d : QgsProcessingParameterDefinition)
  : list QgsProcessingParameterDefinition :=
  if bool_decide (parameter_name d ∈ parameter_name <$> declared)
  then declared else declared ++ [d].

(** [self.INPUT_LAYER] and [self.OUTPUT], set by [__init__]. *)
Definition INPUT_LAYER : string := "INPUT_LAYER".
Definition OUTPUT : string := "OUTPUT".

(** The literal dictionary [initAlgorithm] indexes with [self.geom_type]. *)
Definition geom_param_types : gmap string (list SourceType) :=
  py_dict [("Point", [TypeVectorPoint]);
           ("LineString", [TypeVectorLine]);
           ("Polygon", [TypeVectorPolygon])].

(** The last loop of [initAlgorithm]: one field parameter per slot. *)
Definition declare_slot (translate : string → string → string)
    (declared : list QgsProcessingParameterDefinition)
    (slot : string * string * string * bool)
  : list QgsProcessingParameterDefinition :=
  let '(param_id, label, target_field, required) := slot in
  addParameter declared
    (QgsProcessingParameterField param_id (_tr translate label) INPUT_LAYER
       (negb required) target_field).

(** Declare input layer, output sink, and per-field mapping parameters.
    The state is the list of definitions declared so far; the lookup of the
    geometry type comes first, so an exception leaves it as it was. *)
Definition initAlgorithm (translate : string → string → string)
    (self : SwmmLayerBuilderAlgorithm)
    (declared : list QgsProcessingParameterDefinition)
  : (PyExc + unit) * list QgsProcessingParameterDefinition :=
  match geom_param_types !! geom_type self with
  | None => (inl (KeyError (geom_type self)), declared)
  | Some geom_param_type =>
      let declared :=
        addParameter declared
          (QgsProcessingParameterVectorLayer INPUT_LAYER
             (_tr translate ("Input " +:+ geom_type self +:+ " layer"))
             geom_param_type) in
      let declared :=
        addParameter declared
          (QgsProcessingParameterVectorDestination OUTPUT
             (_tr translate "SWMM layer output")) in
      (inr tt, foldl (declare_slot translate) declared (field_params self))
  end.

(** The parts of a mapping slot. *)
Definition slot_param_id (slot : string * string * string * bool) : string :=
  slot.1.1.1.

Definition slot_label (slot : string * string * string * bool) : string :=
  slot.1.1.2.

Definition slot_target_field (slot : string * string * string * bool)
  : string := slot.1.2.

Definition slot_required (slot : string * string * string * bool) : bool :=
  slot.2.

(** The field parameter a slot is declared as. *)
Definition slot_parameter (translate : string → string → string)
    (slot : string * string * string * bool)
  : QgsProcessingParameterDefinition :=
  QgsProcessingParameterField (slot_param_id slot)
    (_tr translate (slot_label slot)) INPUT_LAYER
    (negb (slot_required slot)) (slot_target_field slot).

(** The geometry types [initAlgorithm] knows. *)
Definition supported_geom_types : list string :=
  ["Point"; "LineString"; "Polygon"].

(** The type names [type_map] knows. *)
Definition known_type_names : list string :=
  ["Double"; "String"; "Int"; "Bool"; "Date"; "Time"].

(** The sections [_field_definitions] has slots for. *)
Definition mapped_sections : list string :=
  ["JUNCTIONS"; "OUTFALLS"; "RAINGAGES"; "STORAGE"; "CONDUITS";
   "ORIFICES"; "PUMPS"; "WEIRS"].

(** More sample data. *)
Module Fixture.

(** The operator picks a column the layer does not have for the elevation
    and the existing column [id] for the name. *)
Definition elevation_from_height (param_id : string) : string :=
  if (param_id =? "NAME_FIELD")%string then "id"
  else if (param_id =? "ELEV_FIELD")%string then "height"
  else "".

Definition height_run : Parameters string :=
  {| par_layer := Some (Sample.nodes_layer Sample.ten_nodes);
     par_string := elevation_from_height;
     par_sink := Some "memory:junctions" |}.

(** The same choices as [Sample.name_from_id] on the junction slots, and
    something else on every other parameter id. *)
Definition name_from_id_noisy (param_id : string) : string :=
  if (param_id =? "NAME_FIELD")%string then "id"
  else if (param_id =? "UNDECLARED")%string then "Elevation"
  else "".

Definition noisy_run : Parameters string :=
  {| par_layer := Some (Sample.nodes_layer Sample.ten_nodes);
     par_string := name_from_id_noisy;
     par_sink := Some "memory:junctions" |}.

(** A layer that reports no feature count although it delivers
    features. *)
Definition uncounted_layer : QgsVectorLayer string :=
  {| l_field_names := ["id"; "Elevation"; "MaxDepth"; "InitDepth"];
     l_wkbType := 1;
     l_sourceCrs := "EPSG:25832";
     l_featureCount := 0;
     l_features := Sample.ten_nodes |}.

Definition uncounted_run : Parameters string :=
  {| par_layer := Some uncounted_layer;
     par_string := Sample.name_from_id;
     par_sink := Some "memory:junctions" |}.

(** Cancellation pending from the start. *)
Definition always_canceled : Feedback := {| canceled_at := λ _, true |}.

(** A registry with an entry for a section without slots or literal
    defaults, one with a misspelt type name, and the subcatchments. *)
Definition subcatchments : list (string * string) :=
  [("Name", "String"); ("RainGage", "String"); ("Outlet", "String");
   ("Area", "Double"); ("Slope", "Double")].

Definition registry : gmap string (list (string * string)) :=
  py_dict [("JUNCTIONS", Sample.junctions);
           ("SUBCATCHMENTS", subcatchments);
           ("OUTLETS", Sample.outlets);
           ("PUMPS", [("Name", "String"); ("Startup", "Float")])].

Definition subcatchments_builder : SwmmLayerBuilderAlgorithm :=
  new_SwmmLayerBuilderAlgorithm "SUBCATCHMENTS" "Subcatchments" "Polygon".

Definition pumps_builder : SwmmLayerBuilderAlgorithm :=
  new_SwmmLayerBuilderAlgorithm "PUMPS" "Pumps" "LineString".

(** The junction builder with other labels, flags, display name and
    geometry type. *)
Definition junctions_relabelled : SwmmLayerBuilderAlgorithm :=
  {| section_key := "JUNCTIONS";
     _display_name := "Nodes";
     geom_type := "Polygon";
     field_params :=
       map (λ slot, (slot_param_id slot, "", slot_target_field slot,
                     negb (slot_required slot)))
           (_field_definitions "JUNCTIONS") |}.

End Fixture.

(** * Properties *)

(** ** Python values and dictionaries *)

Lemma py_in_missing (val : PyVal) :
  py_in val [PyNone; PyStr ""] = true ↔ val = PyNone ∨ val = PyStr "".
Proof.
  unfold py_in; simpl. split.
  - destruct val as [| | | | s | |]; simpl; try discriminate; auto.
    destruct s; simpl; [auto | discriminate].
  - intros [-> | ->]; reflexivity.
Qed.

Lemma str_truthy_spec (s : string) : str_truthy s = false ↔ s = "".
Proof. destruct s; simpl; split; congruence. Qed.

Lemma int_truthy_spec (n : Z) : int_truthy n = false ↔ n = 0%Z.
Proof.
  unfold int_truthy. destruct (Z.eqb_spec n 0); simpl; split; congruence.
Qed.

(** A dictionary display is the map of its items, the last occurrence of a
    key winning. *)
Lemma py_dict_snoc {V : Type} (items : list (string * V)) (k : string) (v : V) :
  py_dict (items ++ [(k, v)]) = <[k := v]> (py_dict items).
Proof. unfold py_dict. by rewrite foldl_app. Qed.

Lemma py_dict_lookup_None {V : Type} (items : list (string * V)) (k : string) :
  k ∉ items.*1 → py_dict items !! k = None.
Proof.
  induction items as [| [k' v'] items IH] using rev_ind; intros Hk.
  - apply lookup_empty.
  - rewrite py_dict_snoc. rewrite fmap_app in Hk. simpl in Hk.
    apply not_elem_of_app in Hk as [Hk1 Hk2].
    rewrite lookup_insert_ne; [by apply IH |].
    intros ->. apply Hk2, list_elem_of_here.
Qed.

Lemma py_dict_lookup_Some {V : Type} (items : list (string * V))
    (k : string) (v : V) :
  NoDup items.*1 → (k, v) ∈ items → py_dict items !! k = Some v.
Proof.
  induction items as [| [k' v'] items IH] using rev_ind; intros Hnd Hin.
  - by apply elem_of_nil in Hin.
  - rewrite py_dict_snoc. rewrite fmap_app in Hnd. simpl in Hnd.
    apply NoDup_app in Hnd. destruct Hnd as (Hnd & Hfresh & _).
    apply elem_of_app in Hin as [Hin | Hin].
    + rewrite lookup_insert_ne; [by apply IH |].
      intros ->. apply (Hfresh k); [| apply list_elem_of_here].
      apply list_elem_of_fmap. by exists (k, v).
    + apply list_elem_of_singleton in Hin. simplify_eq.
      apply lookup_insert_eq.
Qed.

(** ** The methods, one by one *)

(** Case analysis along a chain of [if section == '...'] tests. *)
Ltac section_cases section :=
  repeat match goal with
         | |- context [String.eqb section ?s] =>
             destruct (String.eqb_spec section s) as [-> | ?]
         end.

Section Facts.

Context {Geometry : Type}.
Variable translate : string → string → string.
Variable def_qgis_fields_dict : gmap string (list (string * string)).

Implicit Types (w : World Geometry) (feature : QgsFeature Geometry).

Lemma attribute_lookup_is_Some (name : string) (attrs : list (string * PyVal)) :
  name ∈ attrs.*1 ↔ is_Some (attribute_lookup name attrs).
Proof.
  induction attrs as [| [n v] attrs IH]; simpl.
  - split; [intros H; by apply elem_of_nil in H | intros [? ?]; discriminate].
  - rewrite elem_of_cons. destruct (String.eqb_spec n name) as [-> | Hne].
    + split; eauto.
    + rewrite <- IH. split; [intros [? | ?]; [congruence | done] | auto].
Qed.

(** [_value_from_feature] never raises and is the spec's fallback rule. *)
Lemma value_from_feature_eq feature (selection : option string)
    (default_val : PyVal) w :
  _value_from_feature feature selection default_val w
  = (inr (default default_val (usable_source_value feature selection)), w).
Proof.
  unfold _value_from_feature, usable_source_value.
  destruct selection as [name |]; [| reflexivity].
  destruct name as [| a name]; [reflexivity |]. cbn [str_truthy andb].
  case_bool_decide as Hin.
  - apply attribute_lookup_is_Some in Hin as [v Hv].
    unfold feature_getitem, mbind, M_bind. rewrite Hv. cbn.
    destruct v as [| | | | s | |]; try reflexivity.
    destruct s; reflexivity.
  - destruct (attribute_lookup _ _) eqn:Hv; [| reflexivity].
    exfalso. apply Hin, attribute_lookup_is_Some. eauto.
Qed.

Lemma row_attributes_eq feature (field_map : gmap string string)
    (defaults : gmap string PyVal) (schema : list (string * string)) w :
  row_attributes feature field_map defaults schema w
  = (inr (transform feature field_map defaults schema), w).
Proof.
  unfold row_attributes, transform.
  induction (schema.*1) as [| field keys IH]; [reflexivity |].
  cbn [mapM map]. unfold mbind, M_bind at 1.
  rewrite value_from_feature_eq. unfold mbind, M_bind at 1.
  fold (@mapM (M Geometry) _ _ _ _
          (λ field, _value_from_feature feature (field_map !! field)
                      (dict_get defaults field))).
  rewrite IH. reflexivity.
Qed.

Lemma progress_percent_eq (idx : nat) (total : Z) w :
  total ≠ 0%Z →
  progress_percent idx total w = (inr (progress_value idx total), w).
Proof.
  intros Hne. unfold progress_percent, py_truediv, mbind, M_bind.
  destruct (Z.eqb_spec total 0); [contradiction | reflexivity].
Qed.

Lemma progress_percent_zero (idx : nat) w :
  @progress_percent Geometry idx 0 w = (inl ZeroDivisionError, w).
Proof. reflexivity. Qed.

(** The feature loop never raises; it writes one output feature per input
    feature up to and including the first whose cancellation poll answers
    true, and reports progress after each feature not cancelled, when the
    feature count is non-zero. *)
Lemma feature_loop_eq (feedback : Feedback) (schema : list (string * string))
    (target_fields : QgsFields) (field_map : gmap string string)
    (defaults : gmap string PyVal) (total : Z)
    (features : list (QgsFeature Geometry)) (idx : nat) w :
  feature_loop feedback schema target_fields field_map defaults total idx
               features w
  = (inr tt,
     {| w_sink := w_sink w;
        w_written :=
          w_written w
          ++ map (out_feature target_fields field_map defaults schema)
               (take (features_written feedback (w_polls w) (length features))
                     features);
        w_progress :=
          w_progress w
          ++ progress_reports total idx
               (features_reported feedback (w_polls w) (length features));
        w_polls :=
          w_polls w
          + features_written feedback (w_polls w) (length features) |}).
Proof.
  revert idx w.
  induction features as [| feature rest IH]; intros idx w.
  - destruct w. cbn. unfold progress_reports.
    destruct (int_truthy total); cbn; by rewrite !app_nil_r, Nat.add_0_r.
  - cbn [feature_loop length features_written features_reported].
    unfold mbind, M_bind at 1. rewrite row_attributes_eq.
    unfold mbind, M_bind at 1. cbn [addFeature].
    unfold mbind, M_bind at 1. cbn [isCanceled w_polls].
    destruct (canceled_at feedback (w_polls w)) eqn:Hc.
    + cbn. unfold progress_reports.
      destruct (int_truthy total); cbn; rewrite app_nil_r;
        by rewrite Nat.add_1_r.
    + unfold mbind, M_bind at 1. unfold progress_reports.
      destruct (int_truthy total) eqn:Ht.
      * unfold mbind, M_bind at 1.
        rewrite progress_percent_eq
          by (intros ->; discriminate Ht).
        cbn [setProgress]. rewrite IH. cbn.
        unfold progress_reports, out_feature. rewrite Ht.
        rewrite <- !app_assoc. cbn. by rewrite Nat.add_succ_r.
      * cbn [mret M_ret]. rewrite IH. cbn.
        unfold progress_reports, out_feature. rewrite Ht.
        rewrite <- !app_assoc. cbn. by rewrite Nat.add_succ_r.
Qed.

Lemma declared_fields_cons (name typ : string)
    (items : list (string * string)) (acc : QgsFields) :
  declared_fields ((name, typ) :: items) acc
  = match type_map !! typ with
    | Some t => declared_fields items (QgsFields_append acc (name, t))
    | None => None
    end.
Proof. reflexivity. Qed.

Lemma build_target_fields_cons (name typ : string)
    (items : list (string * string)) (acc : QgsFields) w :
  build_target_fields ((name, typ) :: items) acc w
  = match type_map !! typ with
    | Some t => build_target_fields items (QgsFields_append acc (name, t)) w
    | None => (inl (KeyError typ), w)
    end.
Proof.
  cbn [build_target_fields]. unfold mbind, M_bind, dict_getitem.
  by destruct (type_map !! typ).
Qed.

Lemma build_target_fields_Some (items : list (string * string))
    (acc target_fields : QgsFields) w :
  declared_fields items acc = Some target_fields →
  build_target_fields items acc w = (inr target_fields, w).
Proof.
  revert acc. induction items as [| [name typ] items IH]; intros acc H.
  - cbn in H. by simplify_eq.
  - rewrite declared_fields_cons in H.
    rewrite build_target_fields_cons.
    destruct (type_map !! typ) as [t |]; [by apply IH | discriminate].
Qed.

Lemma build_target_fields_None (items : list (string * string))
    (acc : QgsFields) w :
  declared_fields items acc = None →
  ∃ typ, typ ∈ items.*2 ∧ type_map !! typ = None
         ∧ build_target_fields items acc w = (inl (KeyError typ), w).
Proof.
  revert acc. induction items as [| [name typ] items IH]; intros acc H.
  - discriminate.
  - rewrite declared_fields_cons in H.
    rewrite build_target_fields_cons.
    destruct (type_map !! typ) as [t |] eqn:Ht.
    + destruct (IH _ H) as (typ' & Hin & Hnone & Hrun).
      exists typ'. split; [by apply list_elem_of_further | done].
    + exists typ. split; [apply list_elem_of_here | done].
Qed.

(** With unique keys, as in a dictionary, the output fields carry the
    registry entry's names in the entry's order. *)
Lemma declared_fields_names (items : list (string * string))
    (acc target_fields : QgsFields) :
  NoDup (acc.*1 ++ items.*1) →
  declared_fields items acc = Some target_fields →
  target_fields.*1 = (acc.*1 ++ items.*1).
Proof.
  revert acc. induction items as [| [name typ] items IH]; intros acc Hnd H.
  - cbn in *. simplify_eq. by rewrite app_nil_r.
  - rewrite declared_fields_cons in H.
    destruct (type_map !! typ) as [t |]; [| discriminate].
    unfold QgsFields_append in H. cbn [fst] in H.
    assert (name ∉ acc.*1) as Hfresh.
    { apply NoDup_app in Hnd. destruct Hnd as (_ & Hdisj & _).
      intros Hin. apply (Hdisj name Hin), list_elem_of_here. }
    rewrite bool_decide_eq_false_2 in H by done.
    apply IH in H.
    + rewrite H, fmap_app. cbn. by rewrite <- app_assoc.
    + rewrite fmap_app. cbn. by rewrite <- app_assoc.
Qed.

Lemma declared_fields_is_Some (items : list (string * string))
    (acc : QgsFields) :
  Forall (λ typ, is_Some (type_map !! typ)) items.*2 →
  is_Some (declared_fields items acc).
Proof.
  revert acc. induction items as [| [name typ] items IH]; intros acc H.
  - by eexists.
  - rewrite declared_fields_cons. rewrite fmap_cons in H.
    apply Forall_cons in H as [[t Ht] H]. cbn [snd] in Ht.
    rewrite Ht. by apply IH.
Qed.

(** Once the section is a key of the registry, [_defaults_for_section]
    returns a dictionary and leaves the world alone. *)
Lemma defaults_for_section_ok (section : string)
    (schema : list (string * string)) :
  def_qgis_fields_dict !! section = Some schema →
  ∃ defaults, ∀ w,
    _defaults_for_section def_qgis_fields_dict section w = (inr defaults, w).
Proof.
  intros Hsec. unfold _defaults_for_section.
  section_cases section;
    eexists; intros w; unfold mbind, M_bind, dict_getitem;
    rewrite ?Hsec; reflexivity.
Qed.

(** ** [processAlgorithm] as a whole *)

#[local] Abbreviation process :=
  (processAlgorithm translate def_qgis_fields_dict).

Lemma process_no_layer (self : SwmmLayerBuilderAlgorithm)
    (parameters : Parameters Geometry) (feedback : Feedback) w :
  par_layer parameters = None →
  process self parameters feedback w
  = (inl (QgsProcessingException (_tr translate "Input layer is required.")),
     w).
Proof. intros H. unfold processAlgorithm. by rewrite H. Qed.

Lemma process_unknown_section (self : SwmmLayerBuilderAlgorithm)
    (parameters : Parameters Geometry) (feedback : Feedback)
    (layer : QgsVectorLayer Geometry) w :
  par_layer parameters = Some layer →
  def_qgis_fields_dict !! section_key self = None →
  process self parameters feedback w = (inl (KeyError (section_key self)), w).
Proof.
  intros Hl Hs. unfold processAlgorithm. rewrite Hl.
  unfold mbind, M_bind, dict_getitem. by rewrite Hs.
Qed.

Lemma process_unknown_type (self : SwmmLayerBuilderAlgorithm)
    (parameters : Parameters Geometry) (feedback : Feedback)
    (layer : QgsVectorLayer Geometry) (schema : list (string * string)) w :
  par_layer parameters = Some layer →
  def_qgis_fields_dict !! section_key self = Some schema →
  declared_fields schema [] = None →
  ∃ typ, typ ∈ schema.*2 ∧ type_map !! typ = None
         ∧ process self parameters feedback w = (inl (KeyError typ), w).
Proof.
  intros Hl Hs Hd. unfold processAlgorithm. rewrite Hl.
  unfold mbind, M_bind at 1. unfold dict_getitem. rewrite Hs. cbn [mret M_ret].
  destruct (build_target_fields_None _ _ w Hd) as (typ & Hin & Hnone & Hrun).
  exists typ. repeat split; [done .. |].
  unfold mbind, M_bind at 1. by rewrite Hrun.
Qed.

Lemma process_no_sink (self : SwmmLayerBuilderAlgorithm)
    (parameters : Parameters Geometry) (feedback : Feedback)
    (layer : QgsVectorLayer Geometry) (schema : list (string * string))
    (target_fields : QgsFields) w :
  par_layer parameters = Some layer →
  def_qgis_fields_dict !! section_key self = Some schema →
  declared_fields schema [] = Some target_fields →
  par_sink parameters = None →
  process self parameters feedback w
  = (inl (QgsProcessingException
            (_tr translate "Could not create output sink.")), w).
Proof.
  intros Hl Hs Hd Hk. unfold processAlgorithm. rewrite Hl.
  unfold mbind, M_bind at 1. unfold dict_getitem. rewrite Hs. cbn [mret M_ret].
  unfold mbind, M_bind at 1.
  rewrite (build_target_fields_Some _ _ _ w Hd).
  unfold mbind, M_bind at 1. unfold parameterAsSink. by rewrite Hk.
Qed.

(** A run whose set-up succeeds returns [{OUTPUT: dest_id}] and leaves
    [world_after_run]. *)
Lemma process_run (self : SwmmLayerBuilderAlgorithm)
    (parameters : Parameters Geometry) (feedback : Feedback)
    (layer : QgsVectorLayer Geometry) (schema : list (string * string))
    (target_fields : QgsFields) (dest_id : string)
    (defaults : gmap string PyVal) w :
  par_layer parameters = Some layer →
  def_qgis_fields_dict !! section_key self = Some schema →
  declared_fields schema [] = Some target_fields →
  par_sink parameters = Some dest_id →
  (∀ w', _defaults_for_section def_qgis_fields_dict (section_key self) w'
         = (inr defaults, w')) →
  process self parameters feedback w
  = (inr (py_dict [("OUTPUT", dest_id)]),
     world_after_run w feedback layer target_fields
       (build_field_map self parameters (l_field_names layer))
       defaults schema).
Proof.
  intros Hl Hs Hd Hk Hdef. unfold processAlgorithm. rewrite Hl.
  unfold mbind, M_bind at 1. unfold dict_getitem. rewrite Hs. cbn [mret M_ret].
  unfold mbind, M_bind at 1.
  rewrite (build_target_fields_Some _ _ _ w Hd).
  unfold mbind, M_bind at 1. unfold parameterAsSink. rewrite Hk.
  unfold mbind, M_bind at 1. rewrite Hdef.
  unfold mbind, M_bind at 1. rewrite feature_loop_eq. reflexivity.
Qed.

(** The two ways a run can end: an exception raised during set-up, the
    world untouched, or a completed run. *)
Lemma process_cases (self : SwmmLayerBuilderAlgorithm)
    (parameters : Parameters Geometry) (feedback : Feedback) w :
  (∃ e, e ≠ ZeroDivisionError
        ∧ process self parameters feedback w = (inl e, w))
  ∨ (∃ layer schema target_fields dest_id defaults,
       par_layer parameters = Some layer
       ∧ def_qgis_fields_dict !! section_key self = Some schema
       ∧ declared_fields schema [] = Some target_fields
       ∧ par_sink parameters = Some dest_id
       ∧ (∀ w', _defaults_for_section def_qgis_fields_dict
                  (section_key self) w' = (inr defaults, w'))
       ∧ process self parameters feedback w
         = (inr (py_dict [("OUTPUT", dest_id)]),
            world_after_run w feedback layer target_fields
              (build_field_map self parameters (l_field_names layer))
              defaults schema)).
Proof.
  destruct (par_layer parameters) as [layer |] eqn:Hl.
  2: { left. eexists. split; [| by apply process_no_layer]. discriminate. }
  destruct (def_qgis_fields_dict !! section_key self) as [schema |] eqn:Hs.
  2: { left. eexists. split; [| by eapply process_unknown_section].
       discriminate. }
  destruct (declared_fields schema []) as [target_fields |] eqn:Hd.
  2: { left.
       destruct (process_unknown_type self parameters feedback layer schema w)
         as (typ & _ & _ & Hrun); [done .. |].
       eexists. split; [| exact Hrun]. discriminate. }
  destruct (par_sink parameters) as [dest_id |] eqn:Hk.
  2: { left. eexists. split; [| by eapply process_no_sink]. discriminate. }
  destruct (defaults_for_section_ok _ _ Hs) as [defaults Hdef].
  right. exists layer, schema, target_fields, dest_id, defaults.
  repeat split; [done .. |]. by apply process_run.
Qed.

(** ** Field resolution *)

(** The target field of a mapping slot. *)
Local Abbreviation slot_target := (λ slot : string * string * string * bool, slot.1.2).

Lemma resolve_slot_value (param_val target_field : string)
    (layer_field_names : list string) :
  (if negb (str_truthy param_val)
      && bool_decide (target_field ∈ layer_field_names)
   then target_field else param_val)
  = default "" (resolve param_val target_field layer_field_names).
Proof.
  unfold resolve. destruct param_val; cbn; [| reflexivity].
  by case_bool_decide.
Qed.

Lemma foldl_resolve_slot_lookup (parameters : Parameters Geometry)
    (names : list string) (slots : list (string * string * string * bool))
    (param_id label target : string) (required : bool) :
  NoDup (slot_target <$> slots) →
  (param_id, label, target, required) ∈ slots →
  foldl (resolve_slot parameters names) ∅ slots !! target
  = Some (default "" (resolve (par_string parameters param_id) target names)).
Proof.
  induction slots as [| [[[pid lbl] tgt] req] slots IH] using rev_ind;
    intros Hnd Hin.
  - by apply elem_of_nil in Hin.
  - rewrite foldl_app. cbn [foldl resolve_slot].
    rewrite resolve_slot_value.
    rewrite fmap_app in Hnd. apply NoDup_app in Hnd.
    destruct Hnd as (Hnd & Hfresh & _).
    apply elem_of_app in Hin as [Hin | Hin].
    + rewrite lookup_insert_ne; [by apply IH |].
      intros ->. apply (Hfresh target); [| apply list_elem_of_here].
      apply list_elem_of_fmap. by eexists (_, _, _, _).
    + apply list_elem_of_singleton in Hin. simplify_eq.
      apply lookup_insert_eq.
Qed.

Lemma foldl_resolve_slot_lookup_None (parameters : Parameters Geometry)
    (names : list string) (slots : list (string * string * string * bool))
    (target : string) :
  target ∉ slot_target <$> slots →
  foldl (resolve_slot parameters names) ∅ slots !! target = None.
Proof.
  induction slots as [| [[[pid lbl] tgt] req] slots IH] using rev_ind;
    intros Hnin.
  - apply lookup_empty.
  - rewrite foldl_app. cbn [foldl resolve_slot].
    rewrite fmap_app in Hnin. apply not_elem_of_app in Hnin as [Hn1 Hn2].
    rewrite lookup_insert_ne; [by apply IH |].
    intros ->. apply Hn2, list_elem_of_here.
Qed.

(** No section lists a target field twice. *)
Lemma field_definitions_NoDup (section : string) :
  NoDup (slot_target <$> _field_definitions section).
Proof.
  unfold _field_definitions.
  section_cases section; apply (bool_decide_unpack _); by vm_compute.
Qed.

(** The first loop of [processAlgorithm] refines the spec's Field
    Resolution: every slot's target is bound to the resolved selection, the
    empty string standing for an unset one. *)
Lemma build_field_map_refines_resolve (section display_name geom : string)
    (parameters : Parameters Geometry) (layer_field_names : list string)
    (param_id label target : string) (required : bool) :
  (param_id, label, target, required)
    ∈ field_params (new_SwmmLayerBuilderAlgorithm section display_name geom) →
  build_field_map (new_SwmmLayerBuilderAlgorithm section display_name geom)
    parameters layer_field_names !! target
  = Some (default ""
            (resolve (par_string parameters param_id) target
                     layer_field_names)).
Proof.
  intros Hin. unfold build_field_map.
  apply (foldl_resolve_slot_lookup _ _ _ param_id label target required);
    [apply field_definitions_NoDup | done].
Qed.

(** A target field without a slot has no selection at all. *)
Lemma build_field_map_no_slot (self : SwmmLayerBuilderAlgorithm)
    (parameters : Parameters Geometry) (layer_field_names : list string)
    (target : string) :
  target ∉ slot_target <$> field_params self →
  build_field_map self parameters layer_field_names !! target = None.
Proof. apply foldl_resolve_slot_lookup_None. Qed.

(** ** Cancellation *)

(** A poll that answers true straight away still follows the first
    feature, which is therefore written. *)
Lemma features_written_canceled_at_once (feedback : Feedback)
    (polls n : nat) :
  canceled_at feedback polls = true →
  features_written feedback polls (S n) = 1.
Proof. intros H. cbn. by rewrite H. Qed.

Lemma features_written_le (feedback : Feedback) (polls n : nat) :
  features_written feedback polls n ≤ n.
Proof.
  revert polls. induction n as [| n IH]; intros polls; cbn; [lia |].
  destruct (canceled_at feedback polls); [lia |]. specialize (IH (S polls)). lia.
Qed.

Lemma features_written_never (feedback : Feedback) (polls n : nat) :
  (∀ j, j < n → canceled_at feedback (polls + j) = false) →
  features_written feedback polls n = n
  ∧ features_reported feedback polls n = n.
Proof.
  revert polls. induction n as [| n IH]; intros polls H; cbn; [done |].
  specialize (H 0 ltac:(lia)) as H0. rewrite Nat.add_0_r in H0. rewrite H0.
  destruct (IH (S polls)) as [-> ->]; [| done].
  intros j Hj. specialize (H (S j) ltac:(lia)).
  by rewrite Nat.add_succ_r in H.
Qed.

(** Cancellation first seen at the poll that follows the [k]-th feature:
    exactly [k] features are written, and [k - 1] were reported. *)
Lemma features_written_cancel (feedback : Feedback) (polls n k : nat) :
  0 < k → k ≤ n →
  (∀ j, S j < k → canceled_at feedback (polls + j) = false) →
  canceled_at feedback (polls + pred k) = true →
  features_written feedback polls n = k
  ∧ features_reported feedback polls n = pred k.
Proof.
  revert polls k. induction n as [| n IH]; intros polls k Hk Hkn Hbefore Hat;
    [lia |].
  cbn [features_written features_reported].
  destruct k as [| [| k]]; [lia | |].
  - cbn in Hat. rewrite Nat.add_0_r in Hat. by rewrite Hat.
  - specialize (Hbefore 0 ltac:(lia)) as H0. rewrite Nat.add_0_r in H0.
    rewrite H0.
    destruct (IH (S polls) (S k)) as [-> ->]; [lia | lia | | | done].
    + intros j Hj. specialize (Hbefore (S j) ltac:(lia)).
      by rewrite Nat.add_succ_r in Hbefore.
    + cbn in *. by rewrite Nat.add_succ_r in Hat.
Qed.

(** A feature is reached, and written, when no poll before it answered
    true. *)
Lemma features_written_reaches (feedback : Feedback) (polls n i : nat) :
  i < n →
  (∀ j, j < i → canceled_at feedback (polls + j) = false) →
  i < features_written feedback polls n.
Proof.
  revert polls i. induction n as [| n IH]; intros polls i Hi Hbefore; [lia |].
  cbn [features_written].
  destruct (canceled_at feedback polls) eqn:Hc.
  - destruct i as [| i]; [lia |].
    specialize (Hbefore 0 ltac:(lia)). rewrite Nat.add_0_r in Hbefore.
    congruence.
  - destruct i as [| i]; [lia |].
    apply -> Nat.succ_lt_mono. apply IH; [lia |].
    intros j Hj. specialize (Hbefore (S j) ltac:(lia)).
    by rewrite Nat.add_succ_r in Hbefore.
Qed.

(** The output feature of the [i]-th input feature sits at position [i]
    behind what the sink held. *)
Lemma process_writes_feature (self : SwmmLayerBuilderAlgorithm)
    (parameters : Parameters Geometry) (feedback : Feedback)
    (layer : QgsVectorLayer Geometry) (schema : list (string * string))
    (target_fields : QgsFields) (dest_id : string)
    (defaults : gmap string PyVal) (i : nat) feature w :
  par_layer parameters = Some layer →
  def_qgis_fields_dict !! section_key self = Some schema →
  declared_fields schema [] = Some target_fields →
  par_sink parameters = Some dest_id →
  (∀ w', _defaults_for_section def_qgis_fields_dict (section_key self) w'
         = (inr defaults, w')) →
  l_features layer !! i = Some feature →
  (∀ j, j < i → canceled_at feedback (w_polls w + j) = false) →
  w_written (process self parameters feedback w).2
    !! (length (w_written w) + i)
  = Some (out_feature target_fields
            (build_field_map self parameters (l_field_names layer))
            defaults schema feature).
Proof.
  intros Hl Hs Htf Hk Hd Hi Hbefore.
  rewrite (process_run self parameters feedback layer schema target_fields
             dest_id defaults) by done.
  unfold world_after_run. cbn [snd w_written].
  rewrite lookup_app_r by lia.
  replace (length (w_written w) + i - length (w_written w)) with i by lia.
  rewrite list_lookup_fmap, lookup_take_lt, Hi; [done |].
  apply features_written_reaches; [| done].
  by apply lookup_lt_Some in Hi.
Qed.

(** ** Default tables *)

Lemma py_dict_const_lookup {V : Type} (keys : list string) (c : V)
    (k : string) :
  k ∈ keys → py_dict (map (λ k, (k, c)) keys) !! k = Some c.
Proof.
  induction keys as [| k' keys IH] using rev_ind; intros Hin.
  - by apply elem_of_nil in Hin.
  - rewrite map_app. cbn [map]. rewrite py_dict_snoc.
    destruct (decide (k' = k)) as [-> | Hne].
    + apply lookup_insert_eq.
    + rewrite lookup_insert_ne by done. apply IH.
      apply elem_of_app in Hin as [Hin | Hin]; [done |].
      apply list_elem_of_singleton in Hin. congruence.
Qed.

(** ** The row transform, position by position *)

Lemma transform_lookup feature (selections : gmap string string)
    (defaults : gmap string PyVal) (schema : list (string * string))
    (j : nat) (field : string) :
  schema.*1 !! j = Some field →
  transform feature selections defaults schema !! j
  = Some (default (dict_get defaults field)
                  (usable_source_value feature (selections !! field))).
Proof. intros H. unfold transform. by rewrite list_lookup_fmap, H. Qed.

Lemma transform_Forall2 feature (selections : gmap string string)
    (defaults : gmap string PyVal) (schema : list (string * string)) :
  Forall2 (λ field v, ∀ w,
             _value_from_feature feature (selections !! field)
               (dict_get defaults field) w = (inr v, w))
          schema.*1 (transform feature selections defaults schema).
Proof.
  unfold transform. induction (schema.*1) as [| field keys IH]; cbn.
  - constructor.
  - constructor; [| done]. intros w. apply value_from_feature_eq.
Qed.

Lemma usable_source_value_Some feature (name : string) (v : PyVal) :
  name ≠ "" →
  attribute_lookup name (f_attributes feature) = Some v →
  v ≠ PyNone → v ≠ PyStr "" →
  usable_source_value feature (Some name) = Some v.
Proof.
  intros Hname Hv Hnone Hempty. unfold usable_source_value.
  destruct name; [done |]. rewrite Hv.
  destruct v as [| | | | s | |]; try done. by destruct s.
Qed.

(** ** The claims *)

(** C1 — For every section and every input feature, the attribute list
    written to the output feature has the length and the field order of the
    registry's field list for the section, however many mapping slots the
    operator filled.  Every feature in the sink has the registry's names
    in the registry's order on its fields, one attribute per registry
    field, and at each position what [_value_from_feature] returns for the
    field at that position; and every input feature the run reaches (no
    cancellation poll before it answered true; the first feature always)
    has such an output feature, at its own position in the sink, built
    from that very feature. *)
Theorem written_attributes_follow_schema (self : SwmmLayerBuilderAlgorithm)
    (parameters : Parameters Geometry) (feedback : Feedback)
    (schema : list (string * string)) :
  def_qgis_fields_dict !! section_key self = Some schema →
  NoDup schema.*1 →
  Forall (λ o,
      (o_fields o).*1 = schema.*1
      ∧ length (o_attributes o) = length schema
      ∧ ∃ layer feature defaults,
          par_layer parameters = Some layer
          ∧ feature ∈ l_features layer
          ∧ (∀ w, _defaults_for_section def_qgis_fields_dict
                    (section_key self) w = (inr defaults, w))
          ∧ Forall2 (λ field v, ∀ w,
                       _value_from_feature feature
                         (build_field_map self parameters
                            (l_field_names layer) !! field)
                         (dict_get defaults field) w = (inr v, w))
                    schema.*1 (o_attributes o))
    (w_written (process self parameters feedback initial_world).2)
  ∧ ∀ (layer : QgsVectorLayer Geometry) (dest_id : string) (i : nat) feature,
      par_layer parameters = Some layer →
      Forall (λ typ, is_Some (type_map !! typ)) schema.*2 →
      par_sink parameters = Some dest_id →
      l_features layer !! i = Some feature →
      (∀ j, j < i → canceled_at feedback j = false) →
      ∃ o defaults,
        w_written (process self parameters feedback initial_world).2 !! i
        = Some o
        ∧ (o_fields o).*1 = schema.*1
        ∧ length (o_attributes o) = length schema
        ∧ (∀ w, _defaults_for_section def_qgis_fields_dict
                  (section_key self) w = (inr defaults, w))
        ∧ Forall2 (λ field v, ∀ w,
                     _value_from_feature feature
                       (build_field_map self parameters
                          (l_field_names layer) !! field)
                       (dict_get defaults field) w = (inr v, w))
                  schema.*1 (o_attributes o).
Proof.
  intros Hs Hnd. split.
  - destruct (process_cases self parameters feedback initial_world)
      as [(e & _ & ->) | (layer & schema' & tf & dest & d & Hl & Hs' & Hd & _
                          & Hdef & ->)].
    { constructor. }
    rewrite Hs in Hs'. injection Hs' as <-.
    cbn [snd world_after_run w_written initial_world app].
    apply Forall_fmap, Forall_forall. intros feature Hin.
    apply elem_of_take in Hin as (i & Hin & _).
    apply list_elem_of_lookup_2 in Hin. cbn.
    split; [| split].
    + by apply (declared_fields_names schema [] tf).
    + unfold transform. by rewrite !length_map.
    + exists layer, feature, d. repeat split; [done .. |].
      apply transform_Forall2.
  - intros layer dest_id i feature Hl Htypes Hk Hi Hbefore.
    destruct (declared_fields_is_Some schema [] Htypes) as [tf Htf].
    destruct (defaults_for_section_ok _ schema Hs) as [d Hd].
    eexists. exists d. split.
    + exact (process_writes_feature self parameters feedback layer schema tf
               dest_id d i feature initial_world Hl Hs Htf Hk Hd Hi Hbefore).
    + cbn. split; [| split; [| split]].
      * by apply (declared_fields_names schema [] tf).
      * unfold transform. by rewrite !length_map.
      * done.
      * apply transform_Forall2.
Qed.

(** C2 — Where the selection of a target field names a source field that
    is present on the feature with a value that is neither null nor the
    empty string, the row holds that value itself at the field's
    position. *)
Theorem usable_source_value_passes_through feature
    (field_map : gmap string string) (defaults : gmap string PyVal)
    (schema : list (string * string)) (j : nat) (field name : string)
    (v : PyVal) w :
  schema.*1 !! j = Some field →
  field_map !! field = Some name →
  name ≠ "" →
  name ∈ f_field_names feature →
  attribute_lookup name (f_attributes feature) = Some v →
  v ≠ PyNone → v ≠ PyStr "" →
  ∃ attrs,
    row_attributes feature field_map defaults schema w = (inr attrs, w)
    ∧ attrs !! j = Some v.
Proof.
  intros Hj Hsel Hname _ Hv Hnone Hempty.
  eexists. split; [apply row_attributes_eq |].
  rewrite (transform_lookup _ _ _ _ _ _ Hj), Hsel.
  by rewrite (usable_source_value_Some _ _ v).
Qed.

(** C3 — Where the selection of a target field is unset (no slot, or the
    empty string), or names a field absent from the feature, or the value
    read is null or the empty string, the row holds the defaults' value
    for that field at the field's position; and the defaults of RAINGAGES
    give SCF the value 1.0. *)
Theorem unusable_source_value_gives_default :
  (∀ feature (field_map : gmap string string) (defaults : gmap string PyVal)
     (schema : list (string * string)) (j : nat) (field : string) w,
     schema.*1 !! j = Some field →
     (field_map !! field = None
      ∨ field_map !! field = Some ""
      ∨ ∃ name, field_map !! field = Some name
           ∧ (name ∉ f_field_names feature
              ∨ attribute_lookup name (f_attributes feature) = Some PyNone
              ∨ attribute_lookup name (f_attributes feature)
                = Some (PyStr ""))) →
     ∃ attrs,
       row_attributes feature field_map defaults schema w = (inr attrs, w)
       ∧ attrs !! j = Some (dict_get defaults field))
  ∧ (∀ w : World Geometry, ∃ defaults,
       _defaults_for_section def_qgis_fields_dict "RAINGAGES" w
       = (inr defaults, w)
       ∧ dict_get defaults "SCF" = PyFloat 1.0).
Proof.
  split.
  - intros feature field_map defaults schema j field w Hj Hsel.
    eexists. split; [apply row_attributes_eq |].
    rewrite (transform_lookup _ _ _ _ _ _ Hj). f_equal.
    destruct Hsel as [-> | [-> | (name & -> & Hcase)]]; [done .. |].
    unfold usable_source_value. destruct name; [done |].
    destruct Hcase as [Habsent | [-> | ->]]; [| done ..].
    destruct (attribute_lookup _ _) eqn:Hv; [| done].
    exfalso. apply Habsent, attribute_lookup_is_Some. eauto.
  - intros w. eexists. split; [reflexivity |]. by vm_compute.
Qed.

(** C4 — A mapping slot whose operator choice is empty is resolved by
    looking the slot's target field name up, exactly as spelled, among the
    layer's field names: [field_map] binds the target to itself when the
    name is found and to the empty (unset) selection otherwise.  For
    JUNCTIONS with no explicit selection, a feature
    [{Elevation: 5.2, MaxDepth: '', InitDepth: None}] on a layer with
    these three fields is written as
    [['', 5.2, 0, 0, 0, 0]]. *)
Theorem empty_choice_resolves_by_exact_name :
  (∀ (section display_name geom : string) (parameters : Parameters Geometry)
     (layer_field_names : list string) (param_id label target : string)
     (required : bool),
     let self := new_SwmmLayerBuilderAlgorithm section display_name geom in
     (param_id, label, target, required) ∈ field_params self →
     par_string parameters param_id = "" →
     build_field_map self parameters layer_field_names !! target
     = Some (if bool_decide (target ∈ layer_field_names)
             then target else ""))
  ∧ (∀ (display_name geom : string) (feedback : Feedback)
       (schema : list (string * string)) (g : Geometry)
       (wkb count : Z) (crs dest_id : string),
       def_qgis_fields_dict !! "JUNCTIONS" = Some schema →
       schema.*1 = ["Name"; "Elevation"; "MaxDepth"; "InitDepth";
                    "SurDepth"; "Aponded"] →
       Forall (λ typ, is_Some (type_map !! typ)) schema.*2 →
       let feature :=
         {| f_attributes := [("Elevation", PyFloat 5.2);
                             ("MaxDepth", PyStr ""); ("InitDepth", PyNone)];
            f_geometry := g |} in
       let layer :=
         {| l_field_names := ["Elevation"; "MaxDepth"; "InitDepth"];
            l_wkbType := wkb; l_sourceCrs := crs; l_featureCount := count;
            l_features := [feature] |} in
       let parameters :=
         {| par_layer := Some layer; par_string := λ _, "";
            par_sink := Some dest_id |} in
       let self := new_SwmmLayerBuilderAlgorithm "JUNCTIONS" display_name geom in
       o_attributes
         <$> w_written (process self parameters feedback initial_world).2
       = [[PyStr ""; PyFloat 5.2; PyInt 0; PyInt 0; PyInt 0; PyInt 0]]).
Proof.
  split.
  - intros section display_name geom parameters names param_id label target
      required self Hin Hempty. subst self.
    rewrite (build_field_map_refines_resolve section display_name geom
               parameters names param_id label target required Hin).
    rewrite Hempty. cbn. by case_bool_decide.
  - intros display_name geom feedback schema g wkb count crs dest_id Hs Hkeys
      Htypes feature layer parameters self.
    destruct (declared_fields_is_Some schema [] Htypes) as [tf Htf].
    rewrite (process_run self parameters feedback layer schema tf dest_id
               (py_dict [("Name", PyStr ""); ("Elevation", PyInt 0);
                         ("MaxDepth", PyInt 0); ("InitDepth", PyInt 0);
                         ("SurDepth", PyInt 0); ("Aponded", PyInt 0)]))
      by (done || (intros w'; reflexivity)).
    unfold world_after_run.
    cbn [snd w_written initial_world w_polls l_features length
         features_written app].
    assert (features_written feedback 0 (length (l_features layer)) = 1)
      as -> by (cbn; by destruct (canceled_at feedback 0)).
    cbn [l_features layer take map fmap list_fmap out_feature o_attributes].
    f_equal. unfold transform. rewrite Hkeys. by vm_compute.
Qed.

(** C5 (as amended) — An unknown section name is fatal before anything is
    processed: the run raises, [KeyError] on the registry when a layer was
    given, with the world untouched.  A defaults dictionary without an
    entry for a declared target field is no error: whenever the set-up
    succeeds the run returns its output handle, and the row holds [None]
    at the field's position when the source offers no usable value. *)
Theorem unknown_section_fatal_missing_default_none :
  (∀ (self : SwmmLayerBuilderAlgorithm) (parameters : Parameters Geometry)
     (feedback : Feedback) w,
     def_qgis_fields_dict !! section_key self = None →
     ∃ e, process self parameters feedback w = (inl e, w)
          ∧ (is_Some (par_layer parameters) →
             e = KeyError (section_key self)))
  ∧ (∀ (self : SwmmLayerBuilderAlgorithm) (parameters : Parameters Geometry)
       (feedback : Feedback) layer schema dest_id w,
       par_layer parameters = Some layer →
       def_qgis_fields_dict !! section_key self = Some schema →
       Forall (λ typ, is_Some (type_map !! typ)) schema.*2 →
       par_sink parameters = Some dest_id →
       (process self parameters feedback w).1
       = inr (py_dict [("OUTPUT", dest_id)]))
  ∧ (∀ feature (field_map : gmap string string)
       (defaults : gmap string PyVal) (schema : list (string * string))
       (j : nat) (field : string) w,
       schema.*1 !! j = Some field →
       defaults !! field = None →
       usable_source_value feature (field_map !! field) = None →
       ∃ attrs,
         row_attributes feature field_map defaults schema w = (inr attrs, w)
         ∧ attrs !! j = Some PyNone).
Proof.
  split; [| split].
  - intros self parameters feedback w Hs.
    destruct (par_layer parameters) as [layer |] eqn:Hl.
    + eexists. split; [by eapply process_unknown_section | done].
    + eexists. split; [by apply process_no_layer |]. by intros [? ?].
  - intros self parameters feedback layer schema dest_id w Hl Hs Htypes Hk.
    destruct (declared_fields_is_Some schema [] Htypes) as [tf Htf].
    destruct (defaults_for_section_ok _ schema Hs) as [d Hd].
    by rewrite (process_run self parameters feedback layer schema tf dest_id d).
  - intros feature field_map defaults schema j field w Hj Hnone Hsrc.
    eexists. split; [apply row_attributes_eq |].
    rewrite (transform_lookup _ _ _ _ _ _ Hj), Hsrc.
    unfold dict_get. by rewrite Hnone.
Qed.

(** C6 (as amended) — STORAGE is the one section whose defaults are
    derived from the registry: every field of type 'Double' defaults to 0
    and every field of another type to the empty string.  Any other
    section without a literal table gets [None] for every field. *)
Theorem derived_defaults :
  (∀ schema : list (string * string),
     def_qgis_fields_dict !! "STORAGE" = Some schema →
     NoDup schema.*1 →
     ∃ defaults,
       (∀ w : World Geometry,
          _defaults_for_section def_qgis_fields_dict "STORAGE" w
          = (inr defaults, w))
       ∧ ∀ field typ, (field, typ) ∈ schema →
           defaults !! field
           = Some (if (typ =? "Double")%string then PyInt 0 else PyStr ""))
  ∧ (∀ (section : string) (schema : list (string * string)),
       section ∉ bespoke_sections → section ≠ "STORAGE" →
       def_qgis_fields_dict !! section = Some schema →
       ∃ defaults,
         (∀ w : World Geometry,
            _defaults_for_section def_qgis_fields_dict section w
            = (inr defaults, w))
         ∧ ∀ field, field ∈ schema.*1 → defaults !! field = Some PyNone).
Proof.
  split.
  - intros schema Hs Hnd. eexists. split.
    + intros w. unfold _defaults_for_section. cbn.
      unfold mbind, M_bind, dict_getitem. rewrite Hs. reflexivity.
    + intros field typ Hin.
      apply py_dict_lookup_Some.
      * replace ((map (λ kv : string * string,
                         (kv.1, if (kv.2 =? "Double")%string
                                then PyInt 0 else PyStr "")) schema).*1)
          with (schema.*1); [done |].
        clear. induction schema as [| [k t] schema IH]; cbn; [done |].
        by rewrite IH.
      * apply list_elem_of_fmap. by exists (field, typ).
  - intros section schema Hbespoke Hstorage Hs.
    exists (py_dict (map (λ k, (k, PyNone)) schema.*1)). split.
    + intros w. unfold _defaults_for_section.
      section_cases section; try done;
        try (exfalso; apply Hbespoke, (bool_decide_unpack _); by vm_compute).
      unfold mbind, M_bind, dict_getitem. rewrite Hs. reflexivity.
    + intros field Hin. by apply py_dict_const_lookup.
Qed.

(** C7 (as amended) — Cancellation is polled after each feature has been
    added to the sink and is no error: when it is first seen at the poll
    following the [k]-th of the layer's features, [1 ≤ k], the run returns
    its output handle, the sink holds what it held before followed by the
    output of exactly the first [k] features, and nothing is taken
    back. *)
Theorem cancellation_keeps_written_features
    (self : SwmmLayerBuilderAlgorithm) (parameters : Parameters Geometry)
    (feedback : Feedback) (layer : QgsVectorLayer Geometry)
    (schema : list (string * string)) (dest_id : string) (k : nat) w :
  par_layer parameters = Some layer →
  def_qgis_fields_dict !! section_key self = Some schema →
  Forall (λ typ, is_Some (type_map !! typ)) schema.*2 →
  par_sink parameters = Some dest_id →
  0 < k → k ≤ length (l_features layer) →
  (∀ j, S j < k → canceled_at feedback (w_polls w + j) = false) →
  canceled_at feedback (w_polls w + pred k) = true →
  ∃ target_fields defaults w',
    process self parameters feedback w
    = (inr (py_dict [("OUTPUT", dest_id)]), w')
    ∧ w_written w'
      = w_written w
        ++ map (out_feature target_fields
                  (build_field_map self parameters (l_field_names layer))
                  defaults schema)
             (take k (l_features layer))
    ∧ length (w_written w') = length (w_written w) + k
    ∧ w_polls w' = w_polls w + k.
Proof.
  intros Hl Hs Htypes Hk Hpos Hle Hbefore Hat.
  destruct (declared_fields_is_Some schema [] Htypes) as [tf Htf].
  destruct (defaults_for_section_ok _ schema Hs) as [d Hd].
  destruct (features_written_cancel feedback (w_polls w)
              (length (l_features layer)) k) as [Hn _]; [done .. |].
  exists tf, d. eexists. split; [by apply process_run |].
  unfold world_after_run. cbn [w_written w_polls]. rewrite Hn.
  repeat split.
  rewrite length_app, length_map, length_take. lia.
Qed.

(** C8 — With no input layer, or when the sink cannot be created, the run
    raises before any feature is transformed and leaves the world as it
    was, so nothing is written: the exception carries the message
    "Input layer is required." in the first case and, when the set-up got
    as far as creating the sink, "Could not create output sink." in the
    second. *)
Theorem setup_failures_are_fatal (self : SwmmLayerBuilderAlgorithm)
    (parameters : Parameters Geometry) (feedback : Feedback) w :
  par_layer parameters = None ∨ par_sink parameters = None →
  ∃ e,
    process self parameters feedback w = (inl e, w)
    ∧ (par_layer parameters = None →
       e = QgsProcessingException (_tr translate "Input layer is required."))
    ∧ (∀ schema,
         is_Some (par_layer parameters) →
         def_qgis_fields_dict !! section_key self = Some schema →
         Forall (λ typ, is_Some (type_map !! typ)) schema.*2 →
         e = QgsProcessingException
               (_tr translate "Could not create output sink.")).
Proof.
  intros Hfail.
  destruct (par_layer parameters) as [layer |] eqn:Hl.
  - destruct Hfail as [? | Hk]; [discriminate |].
    destruct (process_cases self parameters feedback w)
      as [(e & _ & He) | (? & ? & ? & ? & ? & _ & _ & _ & Hk' & _)];
      [| congruence].
    exists e. split; [done |]. split; [discriminate |].
    intros schema _ Hs Htypes.
    destruct (declared_fields_is_Some schema [] Htypes) as [tf Htf].
    rewrite (process_no_sink self parameters feedback layer schema tf) in He
      by done.
    congruence.
  - eexists. split; [by apply process_no_layer |]. split; [done |].
    by intros schema [? ?].
Qed.

(** C9 — Every output feature carries the geometry of the input feature
    at the same position, as it is, whatever the section, the mapping and
    the feedback; and every input feature the run reaches (no cancellation
    poll before it answered true; the first feature always) has its output
    feature, at its own position in the sink, with its geometry. *)
Theorem geometry_is_copied (self : SwmmLayerBuilderAlgorithm)
    (parameters : Parameters Geometry) (feedback : Feedback) :
  let written :=
    w_written (process self parameters feedback initial_world).2 in
  Forall2 (λ o feature, o_geometry o = f_geometry feature)
          written (take (length written) (input_features parameters))
  ∧ ∀ (layer : QgsVectorLayer Geometry) (schema : list (string * string))
      (dest_id : string) (i : nat) feature,
      par_layer parameters = Some layer →
      def_qgis_fields_dict !! section_key self = Some schema →
      Forall (λ typ, is_Some (type_map !! typ)) schema.*2 →
      par_sink parameters = Some dest_id →
      l_features layer !! i = Some feature →
      (∀ j, j < i → canceled_at feedback j = false) →
      ∃ o, written !! i = Some o ∧ o_geometry o = f_geometry feature.
Proof.
  cbn zeta. split.
  - destruct (process_cases self parameters feedback initial_world)
      as [(e & _ & ->) | (layer & schema & tf & dest & d & Hl & _ & _ & _ & _
                          & ->)].
    { constructor. }
    unfold input_features. rewrite Hl.
    cbn [snd world_after_run w_written initial_world app w_polls].
    rewrite length_map, length_take, Nat.min_l by apply features_written_le.
    apply Forall2_fmap_l, Forall_Forall2_diag, Forall_forall. done.
  - intros layer schema dest_id i feature Hl Hs Htypes Hk Hi Hbefore.
    destruct (declared_fields_is_Some schema [] Htypes) as [tf Htf].
    destruct (defaults_for_section_ok _ schema Hs) as [d Hd].
    eexists. split.
    + exact (process_writes_feature self parameters feedback layer schema tf
               dest_id d i feature initial_world Hl Hs Htf Hk Hd Hi Hbefore).
    + reflexivity.
Qed.

(** C10 — The progress computation divides only under the guard on the
    feature count, so no run raises [ZeroDivisionError], although the
    computation itself would on a zero count; and a run over a layer
    without features writes nothing, reports nothing and returns the
    output handle. *)
Theorem no_division_by_zero :
  (∀ (self : SwmmLayerBuilderAlgorithm) (parameters : Parameters Geometry)
     (feedback : Feedback) w,
     (process self parameters feedback w).1 ≠ inl ZeroDivisionError)
  ∧ (∀ (idx : nat) (w : World Geometry),
       progress_percent idx 0 w = (inl ZeroDivisionError, w))
  ∧ (∀ (self : SwmmLayerBuilderAlgorithm) (parameters : Parameters Geometry)
       (feedback : Feedback) layer schema dest_id w,
       par_layer parameters = Some layer →
       def_qgis_fields_dict !! section_key self = Some schema →
       Forall (λ typ, is_Some (type_map !! typ)) schema.*2 →
       par_sink parameters = Some dest_id →
       l_features layer = [] →
       let run := process self parameters feedback w in
       run.1 = inr (py_dict [("OUTPUT", dest_id)])
       ∧ w_written run.2 = w_written w
       ∧ w_progress run.2 = w_progress w
       ∧ w_polls run.2 = w_polls w).
Proof.
  split; [| split].
  - intros self parameters feedback w.
    destruct (process_cases self parameters feedback w)
      as [(e & Hne & ->) | (? & ? & ? & ? & ? & _ & _ & _ & _ & _ & ->)];
      cbn; congruence.
  - intros idx w. reflexivity.
  - intros self parameters feedback layer schema dest_id w Hl Hs Htypes Hk
      Hempty run.
    destruct (declared_fields_is_Some schema [] Htypes) as [tf Htf].
    destruct (defaults_for_section_ok _ schema Hs) as [d Hd].
    subst run.
    rewrite (process_run self parameters feedback layer schema tf dest_id d)
      by done.
    unfold world_after_run, progress_reports. rewrite Hempty. cbn.
    destruct (int_truthy (l_featureCount layer));
      by rewrite !app_nil_r, Nat.add_0_r.
Qed.

End Facts.

(** ** The claims on sample data *)

Lemma written_attributes_follow_schema_witness :
  Sample.registry !! "JUNCTIONS" = Some Sample.junctions
  ∧ NoDup Sample.junctions.*1
  ∧ Forall (λ o, (o_fields o).*1 = Sample.junctions.*1
                 ∧ length (o_attributes o) = 6)
      (w_written
         (processAlgorithm Sample.translate Sample.registry
            Sample.junctions_builder (Sample.nodes_run Sample.ten_nodes)
            Sample.canceled_from_third initial_world).2)
  ∧ par_layer (Sample.nodes_run Sample.ten_nodes)
    = Some (Sample.nodes_layer Sample.ten_nodes)
  ∧ Forall (λ typ, is_Some (type_map !! typ)) Sample.junctions.*2
  ∧ par_sink (Sample.nodes_run Sample.ten_nodes) = Some "memory:junctions"
  ∧ l_features (Sample.nodes_layer Sample.ten_nodes) !! 2
    = Some (Sample.node "n2" (PyInt 5) "POINT(2 0)")
  ∧ (∀ j, j < 2 → canceled_at Sample.canceled_from_third j = false)
  ∧ ∃ o,
      w_written
        (processAlgorithm Sample.translate Sample.registry
           Sample.junctions_builder (Sample.nodes_run Sample.ten_nodes)
           Sample.canceled_from_third initial_world).2 !! 2
      = Some o
      ∧ (o_fields o).*1 = Sample.junctions.*1
      ∧ length (o_attributes o) = 6
      ∧ o_attributes o
        = [PyStr "n2"; PyInt 5; PyInt 0; PyInt 0; PyInt 0; PyInt 0].
Proof.
  assert (Sample.registry !! "JUNCTIONS" = Some Sample.junctions) as Hs
    by (vm_compute; reflexivity).
  assert (NoDup Sample.junctions.*1) as Hnd
    by (apply (bool_decide_unpack _); vm_compute; reflexivity).
  assert (Forall (λ typ, is_Some (type_map !! typ)) Sample.junctions.*2)
    as Htypes by (apply (bool_decide_unpack _); vm_compute; reflexivity).
  assert (∀ j, j < 2 → canceled_at Sample.canceled_from_third j = false)
    as Hbefore.
  { intros [| [| j]] Hj; [reflexivity | reflexivity | lia]. }
  destruct (written_attributes_follow_schema Sample.translate Sample.registry
              Sample.junctions_builder (Sample.nodes_run Sample.ten_nodes)
              Sample.canceled_from_third Sample.junctions Hs Hnd)
    as [Hall Hreached].
  split; [exact Hs |]. split; [exact Hnd |]. split.
  { eapply Forall_impl; [exact Hall |].
    intros o (Hnames & Hlen & _). split; [exact Hnames | exact Hlen]. }
  split; [reflexivity |]. split; [exact Htypes |]. split; [reflexivity |].
  split; [reflexivity |]. split; [exact Hbefore |].
  destruct (Hreached (Sample.nodes_layer Sample.ten_nodes) "memory:junctions"
              2 (Sample.node "n2" (PyInt 5) "POINT(2 0)")
              eq_refl Htypes eq_refl eq_refl Hbefore)
    as (o & defaults & Hlookup & Hnames & Hlen & _ & _).
  exists o. split; [exact Hlookup |]. split; [exact Hnames |].
  split; [exact Hlen |].
  vm_compute in Hlookup. injection Hlookup as <-. reflexivity.
Defined.

Lemma usable_source_value_passes_through_witness :
  Sample.raingages.*1 !! 3 = Some "SCF"
  ∧ Sample.scf_selection !! "SCF" = Some "scf_factor"
  ∧ "scf_factor" ≠ ""
  ∧ "scf_factor" ∈ f_field_names (Sample.gage (PyFloat 0.8))
  ∧ attribute_lookup "scf_factor" (f_attributes (Sample.gage (PyFloat 0.8)))
    = Some (PyFloat 0.8)
  ∧ PyFloat 0.8 ≠ PyNone
  ∧ PyFloat 0.8 ≠ PyStr ""
  ∧ ∃ attrs,
      row_attributes (Sample.gage (PyFloat 0.8)) Sample.scf_selection
        (Sample.defaults_of "RAINGAGES") Sample.raingages initial_world
      = (inr attrs, initial_world)
      ∧ attrs !! 3 = Some (PyFloat 0.8).
Proof.
  assert (Sample.raingages.*1 !! 3 = Some "SCF") as H1 by reflexivity.
  assert (Sample.scf_selection !! "SCF" = Some "scf_factor") as H2
    by (vm_compute; reflexivity).
  assert ("scf_factor" ≠ "") as H3 by discriminate.
  assert ("scf_factor" ∈ f_field_names (Sample.gage (PyFloat 0.8))) as H4
    by (apply (bool_decide_unpack _); vm_compute; reflexivity).
  assert (attribute_lookup "scf_factor"
            (f_attributes (Sample.gage (PyFloat 0.8)))
          = Some (PyFloat 0.8)) as H5 by reflexivity.
  assert (PyFloat 0.8 ≠ PyNone) as H6 by discriminate.
  assert (PyFloat 0.8 ≠ PyStr "") as H7 by discriminate.
  repeat (split; [assumption |]).
  exact (usable_source_value_passes_through (Sample.gage (PyFloat 0.8))
           Sample.scf_selection (Sample.defaults_of "RAINGAGES")
           Sample.raingages 3 "SCF" "scf_factor" (PyFloat 0.8) initial_world
           H1 H2 H3 H4 H5 H6 H7).
Defined.

Lemma unusable_source_value_gives_default_witness :
  Sample.raingages.*1 !! 3 = Some "SCF"
  ∧ Sample.scf_selection !! "SCF" = Some "scf_factor"
  ∧ attribute_lookup "scf_factor" (f_attributes (Sample.gage PyNone))
    = Some PyNone
  ∧ ∃ attrs,
      row_attributes (Sample.gage PyNone) Sample.scf_selection
        (Sample.defaults_of "RAINGAGES") Sample.raingages initial_world
      = (inr attrs, initial_world)
      ∧ attrs !! 3 = Some (PyFloat 1.0).
Proof.
  assert (Sample.raingages.*1 !! 3 = Some "SCF") as H1 by reflexivity.
  assert (Sample.scf_selection !! "SCF" = Some "scf_factor") as H2
    by (vm_compute; reflexivity).
  assert (attribute_lookup "scf_factor" (f_attributes (Sample.gage PyNone))
          = Some PyNone) as H3 by reflexivity.
  repeat (split; [assumption |]).
  destruct (proj1 (unusable_source_value_gives_default (Geometry := string)
                     Sample.registry)
              (Sample.gage PyNone) Sample.scf_selection
              (Sample.defaults_of "RAINGAGES") Sample.raingages 3 "SCF"
              initial_world H1
              (or_intror (or_intror
                 (ex_intro _ "scf_factor"
                    (conj H2 (or_intror (or_introl H3)))))))
    as (attrs & Hrow & Hattr).
  exists attrs. split; [exact Hrow |]. rewrite Hattr.
  vm_compute. reflexivity.
Defined.

Lemma empty_choice_resolves_by_exact_name_witness :
  (("ELEV_FIELD", "Elevation field", "Elevation", true)
     ∈ field_params Sample.junctions_builder
   ∧ par_string (Sample.nodes_run Sample.ten_nodes) "ELEV_FIELD" = ""
   ∧ build_field_map Sample.junctions_builder
       (Sample.nodes_run Sample.ten_nodes)
       ["id"; "Elevation"; "MaxDepth"; "InitDepth"] !! "Elevation"
     = Some "Elevation"
   ∧ build_field_map Sample.junctions_builder
       (Sample.nodes_run Sample.ten_nodes)
       ["id"; "elevation"; "MAXDEPTH"] !! "Elevation"
     = Some "")
  ∧ (Sample.registry !! "JUNCTIONS" = Some Sample.junctions
     ∧ Sample.junctions.*1 = ["Name"; "Elevation"; "MaxDepth"; "InitDepth";
                              "SurDepth"; "Aponded"]
     ∧ Forall (λ typ, is_Some (type_map !! typ)) Sample.junctions.*2
     ∧ o_attributes
         <$> w_written
               (processAlgorithm Sample.translate Sample.registry
                  Sample.junctions_builder
                  {| par_layer :=
                       Some {| l_field_names :=
                                 ["Elevation"; "MaxDepth"; "InitDepth"];
                               l_wkbType := 1; l_sourceCrs := "EPSG:25832";
                               l_featureCount := 1;
                               l_features := [Sample.scenario_junction] |};
                     par_string := λ _, "";
                     par_sink := Some "memory:junctions" |}
                  Sample.never_canceled initial_world).2
       = [[PyStr ""; PyFloat 5.2; PyInt 0; PyInt 0; PyInt 0; PyInt 0]]).
Proof.
  assert (("ELEV_FIELD", "Elevation field", "Elevation", true)
            ∈ field_params Sample.junctions_builder) as H1
    by (apply (bool_decide_unpack _); vm_compute; reflexivity).
  assert (par_string (Sample.nodes_run Sample.ten_nodes) "ELEV_FIELD" = "")
    as H2 by reflexivity.
  assert (Sample.registry !! "JUNCTIONS" = Some Sample.junctions) as H3
    by (vm_compute; reflexivity).
  assert (Sample.junctions.*1 = ["Name"; "Elevation"; "MaxDepth"; "InitDepth";
                                 "SurDepth"; "Aponded"]) as H4 by reflexivity.
  assert (Forall (λ typ, is_Some (type_map !! typ)) Sample.junctions.*2)
    as H5 by (apply (bool_decide_unpack _); vm_compute; reflexivity).
  pose proof (empty_choice_resolves_by_exact_name (Geometry := string)
                Sample.translate Sample.registry) as [Hresolve Hscenario].
  split.
  - split; [exact H1 |]. split; [exact H2 |]. split.
    + exact (Hresolve "JUNCTIONS" "Junctions" "Point"
               (Sample.nodes_run Sample.ten_nodes)
               ["id"; "Elevation"; "MaxDepth"; "InitDepth"]
               "ELEV_FIELD" "Elevation field" "Elevation" true H1 H2).
    + exact (Hresolve "JUNCTIONS" "Junctions" "Point"
               (Sample.nodes_run Sample.ten_nodes)
               ["id"; "elevation"; "MAXDEPTH"]
               "ELEV_FIELD" "Elevation field" "Elevation" true H1 H2).
  - split; [exact H3 |]. split; [exact H4 |]. split; [exact H5 |].
    exact (Hscenario "Junctions" "Point" Sample.never_canceled
             Sample.junctions "POINT(1 2)" 1%Z 1%Z "EPSG:25832"
             "memory:junctions" H3 H4 H5).
Defined.

(** The spec's configuration-error rule does not hold of the code: a
    registry entry declaring a field the defaults lack (here
    [Annotation] on the junctions) does not stop the run. *)
Lemma missing_default_is_not_fatal : ¬ missing_configuration_is_fatal.
Proof.
  intros Hclaim.
  destruct (Hclaim Sample.translate Sample.registry_annotated
              Sample.junctions_builder (Sample.nodes_run Sample.ten_nodes)
              Sample.never_canceled) as [e He].
  - right.
    exists Sample.junctions_annotated, "Annotation".
    eexists. split; [vm_compute; reflexivity |].
    split; [apply (bool_decide_unpack _); vm_compute; reflexivity |].
    split; [reflexivity |]. vm_compute. reflexivity.
  - apply (f_equal fst) in He. vm_compute in He. discriminate He.
Qed.

Lemma unknown_section_fatal_missing_default_none_witness :
  (Sample.registry !! "JUNCTION" = None
   ∧ processAlgorithm Sample.translate Sample.registry
       (new_SwmmLayerBuilderAlgorithm "JUNCTION" "Junctions" "Point")
       (Sample.nodes_run Sample.ten_nodes) Sample.never_canceled initial_world
     = (inl (KeyError "JUNCTION"), initial_world))
  ∧ (Sample.registry_annotated !! "JUNCTIONS"
     = Some Sample.junctions_annotated
     ∧ (processAlgorithm Sample.translate Sample.registry_annotated
          Sample.junctions_builder (Sample.nodes_run Sample.ten_nodes)
          Sample.never_canceled initial_world).1
       = inr (py_dict [("OUTPUT", "memory:junctions")]))
  ∧ (Sample.junctions_annotated.*1 !! 6
     = Some "Annotation"
     ∧ Sample.defaults_of "JUNCTIONS" !! "Annotation" = None
     ∧ ∃ attrs,
         row_attributes (Sample.node "n0" (PyFloat 5.2) "POINT(0 0)")
           (build_field_map Sample.junctions_builder
              (Sample.nodes_run Sample.ten_nodes)
              ["id"; "Elevation"; "MaxDepth"; "InitDepth"])
           (Sample.defaults_of "JUNCTIONS")
           Sample.junctions_annotated initial_world
         = (inr attrs, initial_world)
         ∧ attrs !! 6 = Some PyNone).
Proof.
  pose proof (unknown_section_fatal_missing_default_none (Geometry := string)
                Sample.translate) as Hthm.
  split; [| split].
  - assert (Sample.registry !! "JUNCTION" = None) as H1
      by (vm_compute; reflexivity).
    split; [exact H1 |].
    destruct (proj1 (Hthm Sample.registry)
                (new_SwmmLayerBuilderAlgorithm "JUNCTION" "Junctions" "Point")
                (Sample.nodes_run Sample.ten_nodes) Sample.never_canceled
                initial_world H1) as (e & Hrun & He).
    rewrite Hrun. rewrite He; [reflexivity |]. eexists; reflexivity.
  - assert (Sample.registry_annotated !! "JUNCTIONS"
            = Some Sample.junctions_annotated) as H1
      by (vm_compute; reflexivity).
    split; [exact H1 |].
    refine (proj1 (proj2 (Hthm Sample.registry_annotated))
              Sample.junctions_builder (Sample.nodes_run Sample.ten_nodes)
              Sample.never_canceled _ _ "memory:junctions" initial_world
              eq_refl H1 _ eq_refl).
    apply (bool_decide_unpack _). vm_compute. reflexivity.
  - assert (Sample.junctions_annotated.*1 !! 6
            = Some "Annotation") as H1 by reflexivity.
    assert (Sample.defaults_of "JUNCTIONS" !! "Annotation" = None) as H2
      by (vm_compute; reflexivity).
    split; [exact H1 |]. split; [exact H2 |].
    refine (proj2 (proj2 (Hthm Sample.registry)) _ _ _ _ 6 "Annotation"
              initial_world H1 H2 _).
    vm_compute. reflexivity.
Defined.

(** The spec's fallback policy does not hold of the code in every section
    without a literal table: the outlets' numeric field [InOffset] defaults
    to [None], not to 0. *)
Lemma fallback_policy_fails_outside_storage : ¬ fallback_policy_everywhere.
Proof.
  intros Hclaim.
  destruct (Hclaim Sample.registry "OUTLETS" Sample.outlets)
    as (defaults & Hd & Hpolicy).
  - apply (bool_decide_unpack _). vm_compute. reflexivity.
  - vm_compute. reflexivity.
  - apply (bool_decide_unpack _). vm_compute. reflexivity.
  - specialize (Hpolicy "InOffset" "Double").
    cbn in Hd. injection Hd as <-.
    assert (("InOffset", "Double") ∈ Sample.outlets) as Hin
      by (apply (bool_decide_unpack _); vm_compute; reflexivity).
    specialize (Hpolicy Hin). vm_compute in Hpolicy. discriminate Hpolicy.
Qed.

Lemma derived_defaults_witness :
  (Sample.registry !! "STORAGE" = Some Sample.storage
   ∧ NoDup Sample.storage.*1
   ∧ Sample.defaults_of "STORAGE" !! "Coeff" = Some (PyInt 0)
   ∧ Sample.defaults_of "STORAGE" !! "Curve" = Some (PyStr ""))
  ∧ (("OUTLETS" ∉ bespoke_sections)
     ∧ "OUTLETS" ≠ "STORAGE"
     ∧ Sample.registry !! "OUTLETS" = Some Sample.outlets
     ∧ Sample.defaults_of "OUTLETS" !! "InOffset" = Some PyNone).
Proof.
  pose proof (derived_defaults (Geometry := string) Sample.registry)
    as [Hstorage Hother].
  split.
  - assert (Sample.registry !! "STORAGE" = Some Sample.storage) as H1
      by (vm_compute; reflexivity).
    assert (NoDup Sample.storage.*1) as H2
      by (apply (bool_decide_unpack _); vm_compute; reflexivity).
    split; [exact H1 |]. split; [exact H2 |].
    destruct (Hstorage Sample.storage H1 H2) as (defaults & Hd & Hlookup).
    unfold Sample.defaults_of. rewrite (Hd initial_world). cbn [fst].
    split.
    + refine (Hlookup "Coeff" "Double" _).
      apply (bool_decide_unpack _). vm_compute. reflexivity.
    + refine (Hlookup "Curve" "String" _).
      apply (bool_decide_unpack _). vm_compute. reflexivity.
  - assert ("OUTLETS" ∉ bespoke_sections) as H1
      by (apply (bool_decide_unpack _); vm_compute; reflexivity).
    assert ("OUTLETS" ≠ "STORAGE") as H2 by discriminate.
    assert (Sample.registry !! "OUTLETS" = Some Sample.outlets) as H3
      by (vm_compute; reflexivity).
    split; [exact H1 |]. split; [exact H2 |]. split; [exact H3 |].
    destruct (Hother "OUTLETS" Sample.outlets H1 H2 H3)
      as (defaults & Hd & Hlookup).
    unfold Sample.defaults_of. rewrite (Hd initial_world). cbn [fst].
    apply Hlookup. apply (bool_decide_unpack _). vm_compute. reflexivity.
Defined.

(** The spec's cancellation rule does not hold of the code for a
    cancellation pending before the first feature: the poll follows the
    write, so the sink holds one feature, not none. *)
Lemma pending_cancellation_leaves_one_feature :
  ¬ cancellation_after_k_leaves_k_features.
Proof.
  intros Hclaim.
  destruct (Hclaim Sample.translate Sample.registry Sample.junctions_builder
              (Sample.nodes_run Sample.ten_nodes)
              {| canceled_at := λ _, true |}
              (Sample.nodes_layer Sample.ten_nodes) Sample.junctions
              "memory:junctions" 0)
    as (w' & Hrun & Hlen).
  - reflexivity.
  - vm_compute. reflexivity.
  - apply (bool_decide_unpack _). vm_compute. reflexivity.
  - reflexivity.
  - lia.
  - intros j Hj. lia.
  - reflexivity.
  - apply (f_equal snd) in Hrun. cbn [snd] in Hrun. subst w'.
    vm_compute in Hlen. discriminate Hlen.
Qed.

Lemma cancellation_keeps_written_features_witness :
  par_layer (Sample.nodes_run Sample.ten_nodes)
  = Some (Sample.nodes_layer Sample.ten_nodes)
  ∧ Sample.registry !! "JUNCTIONS" = Some Sample.junctions
  ∧ Forall (λ typ, is_Some (type_map !! typ)) Sample.junctions.*2
  ∧ par_sink (Sample.nodes_run Sample.ten_nodes) = Some "memory:junctions"
  ∧ 0 < 3
  ∧ 3 ≤ length (l_features (Sample.nodes_layer Sample.ten_nodes))
  ∧ (∀ j, S j < 3 →
          canceled_at Sample.canceled_from_third
            (w_polls (@initial_world string) + j) = false)
  ∧ canceled_at Sample.canceled_from_third
      (w_polls (@initial_world string) + pred 3) = true
  ∧ ∃ w',
      processAlgorithm Sample.translate Sample.registry
        Sample.junctions_builder (Sample.nodes_run Sample.ten_nodes)
        Sample.canceled_from_third initial_world
      = (inr (py_dict [("OUTPUT", "memory:junctions")]), w')
      ∧ length (w_written w') = 3
      ∧ o_geometry <$> w_written w'
        = ["POINT(0 0)"; "POINT(1 0)"; "POINT(2 0)"].
Proof.
  assert (Sample.registry !! "JUNCTIONS" = Some Sample.junctions) as H2
    by (vm_compute; reflexivity).
  assert (Forall (λ typ, is_Some (type_map !! typ)) Sample.junctions.*2)
    as H3 by (apply (bool_decide_unpack _); vm_compute; reflexivity).
  assert (0 < 3) as H5 by lia.
  assert (3 ≤ length (l_features (Sample.nodes_layer Sample.ten_nodes)))
    as H6 by (simpl; lia).
  assert (∀ j, S j < 3 →
               canceled_at Sample.canceled_from_third
                 (w_polls (@initial_world string) + j) = false) as H7.
  { intros [| [| j]] Hj; [reflexivity | reflexivity | lia]. }
  assert (canceled_at Sample.canceled_from_third
            (w_polls (@initial_world string) + pred 3) = true) as H8
    by reflexivity.
  split; [reflexivity |]. split; [exact H2 |]. split; [exact H3 |].
  split; [reflexivity |]. split; [exact H5 |]. split; [exact H6 |].
  split; [exact H7 |]. split; [exact H8 |].
  destruct (cancellation_keeps_written_features Sample.translate
              Sample.registry Sample.junctions_builder
              (Sample.nodes_run Sample.ten_nodes) Sample.canceled_from_third
              (Sample.nodes_layer Sample.ten_nodes) Sample.junctions
              "memory:junctions" 3 initial_world
              eq_refl H2 H3 eq_refl H5 H6 H7 H8)
    as (tf & d & w' & Hrun & Hwritten & Hlen & _).
  exists w'. split; [exact Hrun |]. split; [exact Hlen |].
  rewrite Hwritten. reflexivity.
Defined.

Lemma setup_failures_are_fatal_witness :
  (par_layer Sample.no_layer_run = None
   ∧ processAlgorithm Sample.translate Sample.registry
       Sample.junctions_builder Sample.no_layer_run Sample.never_canceled
       initial_world
     = (inl (QgsProcessingException "Input layer is required."),
        initial_world))
  ∧ (par_sink Sample.no_sink_run = None
     ∧ processAlgorithm Sample.translate Sample.registry
         Sample.junctions_builder Sample.no_sink_run Sample.never_canceled
         initial_world
       = (inl (QgsProcessingException "Could not create output sink."),
          initial_world)).
Proof.
  split.
  - split; [reflexivity |].
    destruct (setup_failures_are_fatal Sample.translate Sample.registry
                Sample.junctions_builder Sample.no_layer_run
                Sample.never_canceled initial_world (or_introl eq_refl))
      as (e & Hrun & Hlayer & _).
    rewrite Hrun, (Hlayer eq_refl). reflexivity.
  - split; [reflexivity |].
    destruct (setup_failures_are_fatal Sample.translate Sample.registry
                Sample.junctions_builder Sample.no_sink_run
                Sample.never_canceled initial_world (or_intror eq_refl))
      as (e & Hrun & _ & Hsink).
    rewrite Hrun, (Hsink Sample.junctions); [reflexivity | | |].
    + eexists; reflexivity.
    + vm_compute; reflexivity.
    + apply (bool_decide_unpack _); vm_compute; reflexivity.
Defined.

Lemma geometry_is_copied_witness :
  par_layer (Sample.nodes_run Sample.ten_nodes)
  = Some (Sample.nodes_layer Sample.ten_nodes)
  ∧ Sample.registry !! section_key Sample.junctions_builder
    = Some Sample.junctions
  ∧ Forall (λ typ, is_Some (type_map !! typ)) Sample.junctions.*2
  ∧ par_sink (Sample.nodes_run Sample.ten_nodes) = Some "memory:junctions"
  ∧ l_features (Sample.nodes_layer Sample.ten_nodes) !! 2
    = Some (Sample.node "n2" (PyInt 5) "POINT(2 0)")
  ∧ (∀ j, j < 2 → canceled_at Sample.canceled_from_third j = false)
  ∧ ∃ o,
      w_written
        (processAlgorithm Sample.translate Sample.registry
           Sample.junctions_builder (Sample.nodes_run Sample.ten_nodes)
           Sample.canceled_from_third initial_world).2 !! 2
      = Some o
      ∧ o_geometry o = "POINT(2 0)".
Proof.
  assert (Sample.registry !! section_key Sample.junctions_builder
          = Some Sample.junctions) as Hs by (vm_compute; reflexivity).
  assert (Forall (λ typ, is_Some (type_map !! typ)) Sample.junctions.*2)
    as Htypes by (apply (bool_decide_unpack _); vm_compute; reflexivity).
  assert (∀ j, j < 2 → canceled_at Sample.canceled_from_third j = false)
    as Hbefore.
  { intros [| [| j]] Hj; [reflexivity | reflexivity | lia]. }
  split; [reflexivity |]. split; [exact Hs |]. split; [exact Htypes |].
  split; [reflexivity |]. split; [reflexivity |]. split; [exact Hbefore |].
  exact (proj2 (geometry_is_copied Sample.translate Sample.registry
                  Sample.junctions_builder (Sample.nodes_run Sample.ten_nodes)
                  Sample.canceled_from_third)
           (Sample.nodes_layer Sample.ten_nodes) Sample.junctions
           "memory:junctions" 2 (Sample.node "n2" (PyInt 5) "POINT(2 0)")
           eq_refl Hs Htypes eq_refl eq_refl Hbefore).
Defined.

Lemma no_division_by_zero_witness :
  par_layer Sample.empty_run = Some (Sample.nodes_layer [])
  ∧ l_featureCount (Sample.nodes_layer []) = 0%Z
  ∧ Sample.registry !! "JUNCTIONS" = Some Sample.junctions
  ∧ Forall (λ typ, is_Some (type_map !! typ)) Sample.junctions.*2
  ∧ par_sink Sample.empty_run = Some "memory:junctions"
  ∧ l_features (Sample.nodes_layer []) = []
  ∧ (let run :=
       processAlgorithm Sample.translate Sample.registry
         Sample.junctions_builder Sample.empty_run Sample.never_canceled
         initial_world in
     run.1 = inr (py_dict [("OUTPUT", "memory:junctions")])
     ∧ w_written run.2 = []
     ∧ w_progress run.2 = []
     ∧ w_polls run.2 = 0).
Proof.
  assert (Sample.registry !! "JUNCTIONS" = Some Sample.junctions) as H2
    by (vm_compute; reflexivity).
  assert (Forall (λ typ, is_Some (type_map !! typ)) Sample.junctions.*2)
    as H3 by (apply (bool_decide_unpack _); vm_compute; reflexivity).
  split; [reflexivity |]. split; [reflexivity |]. split; [exact H2 |].
  split; [exact H3 |]. split; [reflexivity |]. split; [reflexivity |].
  exact (proj2 (proj2 (no_division_by_zero (Geometry := string)
                         Sample.translate Sample.registry))
           Sample.junctions_builder Sample.empty_run Sample.never_canceled
           (Sample.nodes_layer []) Sample.junctions "memory:junctions"
           initial_world eq_refl H2 H3 eq_refl eq_refl).
Defined.

(** * Further properties of the module *)

Section More.

Context {Geometry : Type}.
Variable translate : string → string → string.

Implicit Types (w : World Geometry) (feature : QgsFeature Geometry).
Implicit Types (registry : gmap string (list (string * string))).

(** ** Auxiliary facts *)

Lemma attribute_lookup_elem_of (name : string) (attrs : list (string * PyVal))
    (v : PyVal) :
  attribute_lookup name attrs = Some v → (name, v) ∈ attrs.
Proof.
  induction attrs as [| [n v'] attrs IH]; cbn; [discriminate |].
  destruct (String.eqb_spec n name) as [-> | Hne]; intros H.
  - simplify_eq. apply list_elem_of_here.
  - apply list_elem_of_further. by apply IH.
Qed.

Lemma py_dict_is_Some {V : Type} (items : list (string * V)) (k : string) :
  is_Some (py_dict items !! k) ↔ k ∈ items.*1.
Proof.
  induction items as [| [k' v'] items IH] using rev_ind.
  - split; [intros [? H]; unfold py_dict in H; cbn in H;
             by rewrite lookup_empty in H |].
    intros H. by apply elem_of_nil in H.
  - rewrite py_dict_snoc, fmap_app, elem_of_app. cbn.
    destruct (decide (k' = k)) as [-> | Hne].
    + rewrite lookup_insert_eq. split; [intros _; right; apply list_elem_of_here |].
      by eexists.
    + rewrite lookup_insert_ne by done. rewrite IH.
      split; [auto |]. intros [? | Hin]; [done |].
      apply list_elem_of_singleton in Hin. congruence.
Qed.

Lemma type_map_known (typ : string) :
  is_Some (type_map !! typ) ↔ typ ∈ known_type_names.
Proof. unfold type_map. by rewrite py_dict_is_Some. Qed.

Lemma declared_fields_Some_types (items : list (string * string))
    (acc target_fields : QgsFields) :
  declared_fields items acc = Some target_fields →
  Forall (λ typ, is_Some (type_map !! typ)) items.*2.
Proof.
  revert acc. induction items as [| [name typ] items IH]; intros acc H.
  - constructor.
  - rewrite declared_fields_cons in H. rewrite fmap_cons.
    destruct (type_map !! typ) as [t |] eqn:Ht; [| discriminate].
    constructor; [cbn [snd]; rewrite Ht; by eexists | by eapply IH].
Qed.

(** With unique keys the output fields are the registry's items, each
    type name replaced by its [QVariant] tag. *)
Lemma declared_fields_typed (items : list (string * string))
    (acc target_fields : QgsFields) :
  NoDup (acc.*1 ++ items.*1) →
  declared_fields items acc = Some target_fields →
  ∃ typed, target_fields = acc ++ typed
           ∧ Forall2 (λ item f, f.1 = item.1 ∧ type_map !! item.2 = Some f.2)
                     items typed.
Proof.
  revert acc. induction items as [| [name typ] items IH]; intros acc Hnd H.
  - cbn in H. simplify_eq. exists []. by rewrite app_nil_r.
  - rewrite declared_fields_cons in H.
    destruct (type_map !! typ) as [t |] eqn:Ht; [| discriminate].
    unfold QgsFields_append in H. cbn [fst] in H.
    assert (name ∉ acc.*1) as Hfresh.
    { apply NoDup_app in Hnd. destruct Hnd as (_ & Hdisj & _).
      intros Hin. apply (Hdisj name Hin), list_elem_of_here. }
    rewrite bool_decide_eq_false_2 in H by done.
    apply IH in H as (typed & -> & Htyped).
    + exists ((name, t) :: typed). split; [by rewrite <- app_assoc |].
      by constructor.
    + rewrite fmap_app. cbn. by rewrite <- app_assoc.
Qed.

(** [field_map] depends on the slots through their parameter ids and
    target fields only, and on the parameters through the strings at
    those ids only. *)
Lemma foldl_resolve_slot_ext (p1 p2 : Parameters Geometry)
    (names : list string)
    (slots1 slots2 : list (string * string * string * bool))
    (field_map : gmap string string) :
  Forall2 (λ s1 s2, slot_target_field s1 = slot_target_field s2
                    ∧ par_string p1 (slot_param_id s1)
                      = par_string p2 (slot_param_id s2))
          slots1 slots2 →
  foldl (resolve_slot p1 names) field_map slots1
  = foldl (resolve_slot p2 names) field_map slots2.
Proof.
  intros H. revert field_map.
  induction H as [| [[[pid1 l1] t1] r1] [[[pid2 l2] t2] r2] ? ? [Ht Hs] _ IH];
    intros field_map; [done |].
  cbn [foldl]. rewrite <- IH. f_equal.
  unfold slot_target_field, slot_param_id in *. cbn in *. subst.
  by rewrite Hs.
Qed.

(** No section uses a parameter id twice, nor the id of the input layer or
    of the output. *)
Lemma parameter_ids_NoDup (section : string) :
  NoDup (INPUT_LAYER :: OUTPUT :: (slot_param_id <$> _field_definitions section)).
Proof.
  unfold _field_definitions.
  section_cases section; apply (bool_decide_unpack _); by vm_compute.
Qed.

Lemma foldl_declare_slot (declared : list QgsProcessingParameterDefinition)
    (slots : list (string * string * string * bool)) :
  NoDup ((parameter_name <$> declared) ++ (slot_param_id <$> slots)) →
  foldl (declare_slot translate) declared slots
  = declared ++ map (slot_parameter translate) slots.
Proof.
  revert declared.
  induction slots as [| [[[pid label] target] required] slots IH];
    intros declared Hnd.
  - cbn. by rewrite app_nil_r.
  - cbn [foldl map declare_slot]. unfold addParameter. cbn [parameter_name].
    assert (pid ∉ parameter_name <$> declared) as Hfresh.
    { apply NoDup_app in Hnd. destruct Hnd as (_ & Hdisj & _).
      intros Hin. apply (Hdisj pid Hin), list_elem_of_here. }
    rewrite bool_decide_eq_false_2 by done.
    rewrite IH; [by rewrite <- app_assoc |].
    rewrite fmap_app. cbn. by rewrite <- app_assoc.
Qed.

(** ** [_value_from_feature] and [_defaults_for_section] *)

(** X1 — [_value_from_feature] never raises, although it indexes the
    feature, and leaves the world alone; what it returns is the default
    handed in or a value the feature holds under the selected, non-empty
    name, and then neither [None] nor the empty string. *)
Theorem value_from_feature_never_raises feature (selection : option string)
    (default_val : PyVal) w :
  ∃ v, _value_from_feature feature selection default_val w = (inr v, w)
       ∧ (v = default_val
          ∨ ∃ name, selection = Some name ∧ name ≠ ""
                    ∧ (name, v) ∈ f_attributes feature
                    ∧ v ≠ PyNone ∧ v ≠ PyStr "").
Proof.
  eexists. split; [apply value_from_feature_eq |].
  unfold usable_source_value.
  destruct selection as [[| a name] |]; [by left | | by left].
  destruct (attribute_lookup _ _) as [v |] eqn:Hv; [| by left].
  apply attribute_lookup_elem_of in Hv.
  destruct v as [| | | | [| b s] | |]; try (by left);
    right; eexists; repeat split; done.
Qed.

(** X2 — [_defaults_for_section] consults the registry only for sections
    without a literal table: for the eight sections with one it returns
    the same dictionary whatever the registry holds; for any other section
    it raises [KeyError] on the section when the registry lacks it, and
    otherwise returns a dictionary whose keys are exactly the registry
    entry's keys. *)
Theorem defaults_for_section_registry_use :
  (∀ registry registry' (section : string) w,
     section ∈ bespoke_sections →
     (∃ defaults,
        _defaults_for_section registry section w = (inr defaults, w))
     ∧ _defaults_for_section registry section w
       = _defaults_for_section registry' section w)
  ∧ (∀ registry (section : string) w,
       section ∉ bespoke_sections →
       registry !! section = None →
       _defaults_for_section registry section w
       = (inl (KeyError section), w))
  ∧ (∀ registry (section : string) (schema : list (string * string)) w,
       section ∉ bespoke_sections →
       registry !! section = Some schema →
       ∃ defaults,
         _defaults_for_section registry section w = (inr defaults, w)
         ∧ ∀ field, is_Some (defaults !! field) ↔ field ∈ schema.*1).
Proof.
  split; [| split].
  - intros registry registry' section w Hin.
    unfold bespoke_sections in Hin.
    repeat (apply elem_of_cons in Hin as [-> | Hin];
            [split; [eexists |]; reflexivity |]).
    by apply elem_of_nil in Hin.
  - intros registry section w Hout Hnone. unfold _defaults_for_section.
    section_cases section;
      try (exfalso; apply Hout, (bool_decide_unpack _); by vm_compute);
      unfold mbind, M_bind, dict_getitem; by rewrite Hnone.
  - intros registry section schema w Hout Hs. unfold _defaults_for_section.
    section_cases section;
      try (exfalso; apply Hout, (bool_decide_unpack _); by vm_compute);
      unfold mbind, M_bind, dict_getitem; rewrite Hs;
      (eexists; split; [reflexivity |]);
      intros field; rewrite py_dict_is_Some.
    + replace ((map (λ kv : string * string,
                       (kv.1, if (kv.2 =? "Double")%string
                              then PyInt 0 else PyStr "")) schema).*1)
        with (schema.*1); [done |].
      clear. induction schema as [| [k t] schema IH]; cbn; [done |].
      by rewrite IH.
    + replace ((map (λ k : string, (k, PyNone)) schema.*1).*1)
        with (schema.*1); [done |].
      clear. induction (schema.*1) as [| k keys IH]; cbn; [done |].
      by rewrite <- IH.
Qed.

(** X3 — In every section other than STORAGE, each target field a slot can
    map has an entry in the section's defaults, so a mapped field never
    falls back on a missing key. *)
Theorem mapped_fields_have_defaults registry (section : string)
    (defaults : gmap string PyVal)
    (slot : string * string * string * bool) w :
  section ≠ "STORAGE" →
  slot ∈ _field_definitions section →
  _defaults_for_section registry section w = (inr defaults, w) →
  is_Some (defaults !! slot_target_field slot).
Proof.
  intros Hstorage Hslot Hd.
  enough (Forall (λ slot, is_Some (defaults !! slot_target_field slot))
                 (_field_definitions section)) as Hall
    by (by apply (proj1 (Forall_forall _ _) Hall)).
  clear Hslot. revert Hd. unfold _defaults_for_section, _field_definitions.
  section_cases section; try done; intros Hd;
    try (unfold mret, M_ret in Hd; injection Hd as <-;
         apply (bool_decide_unpack _); by vm_compute).
Qed.

(** ** [initAlgorithm] *)

(** X4 — Started on an algorithm without parameters, [initAlgorithm]
    declares, for each section and each supported geometry type, the input
    layer, the output and one field parameter per slot, in this order and
    with pairwise distinct names: no slot is lost to a name the host has
    seen before.  A field parameter is optional exactly when its slot is
    not required, hangs off the input layer and proposes the target field
    as its value. *)
Theorem initAlgorithm_declares_every_slot
    (section display_name geom : string) :
  geom ∈ supported_geom_types →
  ∃ types declared,
    geom_param_types !! geom = Some types
    ∧ initAlgorithm translate
        (new_SwmmLayerBuilderAlgorithm section display_name geom) []
      = (inr tt, declared)
    ∧ declared
      = QgsProcessingParameterVectorLayer INPUT_LAYER
          (_tr translate ("Input " +:+ geom +:+ " layer")) types
        :: QgsProcessingParameterVectorDestination OUTPUT
             (_tr translate "SWMM layer output")
        :: map (slot_parameter translate) (_field_definitions section)
    ∧ NoDup (parameter_name <$> declared).
Proof.
  intros Hgeom.
  assert (∃ types, geom_param_types !! geom = Some types) as [types Htypes].
  { unfold supported_geom_types in Hgeom.
    repeat (apply elem_of_cons in Hgeom as [-> | Hgeom]; [by eexists |]).
    by apply elem_of_nil in Hgeom. }
  pose proof (parameter_ids_NoDup section) as Hnd.
  exists types. eexists. split; [done |]. split; [| split; [reflexivity |]].
  - unfold initAlgorithm. cbn [geom_type field_params
                               new_SwmmLayerBuilderAlgorithm].
    rewrite Htypes. f_equal.
    unfold addParameter at 2. cbn [fmap list_fmap parameter_name].
    rewrite bool_decide_eq_false_2 by (intros H; by apply elem_of_nil in H).
    unfold addParameter at 1. cbn [fmap list_fmap parameter_name app].
    rewrite bool_decide_eq_false_2
      by (intros H; apply list_elem_of_singleton in H; discriminate H).
    cbn [app]. rewrite foldl_declare_slot; [done | exact Hnd].
  - assert (∀ slots, parameter_name <$> map (slot_parameter translate) slots
                     = slot_param_id <$> slots) as Hnames.
    { induction slots as [| slot slots IH]; [done |].
      cbn. by rewrite <- IH. }
    rewrite !fmap_cons, Hnames. exact Hnd.
Qed.

(** X5 — [initAlgorithm] succeeds exactly for the geometry types Point,
    LineString and Polygon; for any other it raises [KeyError] on the
    geometry type before declaring anything. *)
Theorem initAlgorithm_geometry_types (self : SwmmLayerBuilderAlgorithm)
    (declared : list QgsProcessingParameterDefinition) :
  if bool_decide (geom_type self ∈ supported_geom_types)
  then (initAlgorithm translate self declared).1 = inr tt
  else initAlgorithm translate self declared
       = (inl (KeyError (geom_type self)), declared).
Proof.
  unfold initAlgorithm. case_bool_decide as Hgeom.
  - unfold supported_geom_types in Hgeom.
    repeat (apply elem_of_cons in Hgeom as [-> | Hgeom]; [reflexivity |]).
    by apply elem_of_nil in Hgeom.
  - destruct (geom_param_types !! geom_type self) as [types |] eqn:Hl;
      [| done].
    exfalso. apply Hgeom.
    apply (py_dict_is_Some
             [("Point", [TypeVectorPoint]); ("LineString", [TypeVectorLine]);
              ("Polygon", [TypeVectorPolygon])]).
    by eexists.
Qed.

(** ** What [processAlgorithm] depends on *)

(** X6 — A run reads the operator's strings only at the parameter ids of
    the algorithm's slots: two parameter sets with the same layer and sink
    that agree on these ids give the same result and the same world. *)
Theorem process_reads_slot_parameters_only registry
    (self : SwmmLayerBuilderAlgorithm) (p1 p2 : Parameters Geometry)
    (feedback : Feedback) w :
  par_layer p1 = par_layer p2 →
  par_sink p1 = par_sink p2 →
  (∀ slot, slot ∈ field_params self →
           par_string p1 (slot_param_id slot)
           = par_string p2 (slot_param_id slot)) →
  processAlgorithm translate registry self p1 feedback w
  = processAlgorithm translate registry self p2 feedback w.
Proof.
  intros Hl Hk Hs.
  assert (∀ names, build_field_map self p1 names
                   = build_field_map self p2 names) as Hfm.
  { intros names. unfold build_field_map. apply foldl_resolve_slot_ext.
    apply Forall_Forall2_diag, Forall_forall. intros slot Hin.
    split; [done | by apply Hs]. }
  destruct p1 as [l1 s1 k1], p2 as [l2 s2 k2]. cbn in Hl, Hk. subst l2 k2.
  unfold processAlgorithm, parameterAsSink. cbn [par_layer par_sink].
  destruct l1 as [layer |]; [| done]. by rewrite Hfm.
Qed.

(** X7 — A run uses of the algorithm object its section key and, of each
    slot, the parameter id and the target field: labels, required flags,
    display name and geometry type have no influence, so a required slot
    left empty is never an error. *)
Theorem process_ignores_labels_and_required_flags registry
    (self self' : SwmmLayerBuilderAlgorithm)
    (parameters : Parameters Geometry) (feedback : Feedback) w :
  section_key self = section_key self' →
  (λ slot, (slot_param_id slot, slot_target_field slot)) <$> field_params self
  = (λ slot, (slot_param_id slot, slot_target_field slot))
      <$> field_params self' →
  processAlgorithm translate registry self parameters feedback w
  = processAlgorithm translate registry self' parameters feedback w.
Proof.
  intros Hsec Hslots.
  assert (∀ names, build_field_map self parameters names
                   = build_field_map self' parameters names) as Hfm.
  { intros names. unfold build_field_map. apply foldl_resolve_slot_ext.
    revert Hslots. generalize (field_params self'). 
    induction (field_params self) as [| s1 slots1 IH];
      intros [| s2 slots2] Heq; try discriminate; constructor.
    - injection Heq as Hid Ht _. by rewrite Hid, Ht.
    - apply IH. by injection Heq. }
  unfold processAlgorithm. rewrite Hsec.
  destruct (par_layer parameters) as [layer |]; [| done]. by rewrite Hfm.
Qed.

(** X8 — A non-empty operator choice is taken as it is: it wins over a
    layer field named like the target and is not checked against the
    layer, and when the feature has no field of that name the row holds
    the default for the target. *)
Theorem explicit_choice_is_taken_as_is
    (section display_name geom : string) (parameters : Parameters Geometry)
    (layer_field_names : list string) (param_id label target : string)
    (required : bool) :
  let self := new_SwmmLayerBuilderAlgorithm section display_name geom in
  let field_map := build_field_map self parameters layer_field_names in
  (param_id, label, target, required) ∈ field_params self →
  par_string parameters param_id ≠ "" →
  field_map !! target = Some (par_string parameters param_id)
  ∧ ∀ feature (defaults : gmap string PyVal)
      (schema : list (string * string)) (j : nat) w,
      schema.*1 !! j = Some target →
      par_string parameters param_id ∉ f_field_names feature →
      ∃ attrs,
        row_attributes feature field_map defaults schema w = (inr attrs, w)
        ∧ attrs !! j = Some (dict_get defaults target).
Proof.
  intros self field_map Hin Hchoice.
  assert (field_map !! target = Some (par_string parameters param_id)) as Hfm.
  { subst field_map self.
    rewrite (build_field_map_refines_resolve section display_name geom
               parameters layer_field_names param_id label target required
               Hin).
    unfold resolve. by destruct (par_string parameters param_id). }
  split; [done |].
  intros feature defaults schema j w Hj Habsent.
  eexists. split; [apply row_attributes_eq |].
  rewrite (transform_lookup _ _ _ _ _ _ Hj), Hfm. f_equal.
  unfold usable_source_value.
  destruct (par_string parameters param_id); [done |].
  destruct (attribute_lookup _ _) eqn:Hv; [| done].
  exfalso. apply Habsent, attribute_lookup_is_Some. eauto.
Qed.

(** X9 — A target field of the registry entry for which the algorithm has
    no slot takes its default on every written feature, whatever the input
    feature holds; for a section without slots every row is the row of
    defaults. *)
Theorem fields_without_slot_take_default registry
    (self : SwmmLayerBuilderAlgorithm) (parameters : Parameters Geometry)
    (feedback : Feedback) (schema : list (string * string)) (j : nat)
    (field : string) :
  registry !! section_key self = Some schema →
  schema.*1 !! j = Some field →
  field ∉ slot_target_field <$> field_params self →
  ∃ defaults,
    (∀ w, _defaults_for_section registry (section_key self) w
          = (inr defaults, w))
    ∧ Forall (λ o, o_attributes o !! j = Some (dict_get defaults field))
        (w_written
           (processAlgorithm translate registry self parameters feedback
              initial_world).2).
Proof.
  intros Hs Hj Hnoslot.
  destruct (defaults_for_section_ok (Geometry := Geometry) registry _ schema Hs)
    as [d Hd].
  exists d. split; [done |].
  destruct (process_cases translate registry self parameters feedback
              initial_world)
    as [(e & _ & ->) | (layer & schema' & tf & dest & d' & Hl & Hs' & Htf & _
                        & Hd' & ->)].
  { constructor. }
  rewrite Hs in Hs'. injection Hs' as <-.
  pose proof (Hd initial_world) as H1. rewrite Hd' in H1. injection H1 as ->.
  cbn [snd world_after_run w_written initial_world app].
  apply Forall_fmap, Forall_forall. intros feature _. cbn.
  rewrite (transform_lookup _ _ _ _ _ _ Hj).
  by rewrite (build_field_map_no_slot self parameters _ field Hnoslot).
Qed.

(** ** Complete and cancelled runs *)

(** X10 — A run that is never cancelled writes one output feature per
    input feature, in input order, after what the sink held, and polls
    [isCanceled] once per feature; it reports progress once per feature
    when the layer's feature count is non-zero and never when it is zero,
    though the features are processed all the same. *)
Theorem uncancelled_run_writes_every_feature registry
    (self : SwmmLayerBuilderAlgorithm) (parameters : Parameters Geometry)
    (feedback : Feedback) (layer : QgsVectorLayer Geometry)
    (schema : list (string * string)) (dest_id : string) w :
  par_layer parameters = Some layer →
  registry !! section_key self = Some schema →
  Forall (λ typ, is_Some (type_map !! typ)) schema.*2 →
  par_sink parameters = Some dest_id →
  (∀ j, j < length (l_features layer) →
        canceled_at feedback (w_polls w + j) = false) →
  ∃ target_fields defaults w',
    processAlgorithm translate registry self parameters feedback w
    = (inr (py_dict [(OUTPUT, dest_id)]), w')
    ∧ w_written w'
      = w_written w
        ++ map (out_feature target_fields
                  (build_field_map self parameters (l_field_names layer))
                  defaults schema)
             (l_features layer)
    ∧ w_polls w' = w_polls w + length (l_features layer)
    ∧ length (w_progress w')
      = length (w_progress w)
        + (if bool_decide (l_featureCount layer = 0%Z) then 0
           else length (l_features layer)).
Proof.
  intros Hl Hs Htypes Hk Hnever.
  destruct (declared_fields_is_Some schema [] Htypes) as [tf Htf].
  destruct (defaults_for_section_ok (Geometry := Geometry) registry _ schema Hs)
    as [d Hd].
  destruct (features_written_never feedback (w_polls w)
              (length (l_features layer)) Hnever) as [Hn Hr].
  exists tf, d. eexists. split; [by apply process_run |].
  unfold world_after_run. cbn [w_written w_polls w_progress].
  rewrite Hn, Hr, firstn_all. repeat split.
  rewrite length_app. f_equal. unfold progress_reports, int_truthy.
  case_bool_decide as Hz.
  - by rewrite Hz.
  - destruct (Z.eqb_spec (l_featureCount layer) 0); [done |].
    cbn. by rewrite length_map, length_seq.
Qed.

(** X11 — Cancellation is polled only after a feature was added: with a
    cancellation already pending at the first poll, a run over a non-empty
    layer still writes its first feature, and only that one, and reports
    no progress. *)
Theorem pending_cancellation_writes_first_feature registry
    (self : SwmmLayerBuilderAlgorithm) (parameters : Parameters Geometry)
    (feedback : Feedback) (layer : QgsVectorLayer Geometry)
    (schema : list (string * string)) (dest_id : string)
    (feature : QgsFeature Geometry) (rest : list (QgsFeature Geometry)) w :
  par_layer parameters = Some layer →
  registry !! section_key self = Some schema →
  Forall (λ typ, is_Some (type_map !! typ)) schema.*2 →
  par_sink parameters = Some dest_id →
  l_features layer = feature :: rest →
  canceled_at feedback (w_polls w) = true →
  ∃ target_fields defaults w',
    processAlgorithm translate registry self parameters feedback w
    = (inr (py_dict [(OUTPUT, dest_id)]), w')
    ∧ w_written w'
      = w_written w
        ++ [out_feature target_fields
              (build_field_map self parameters (l_field_names layer))
              defaults schema feature]
    ∧ w_progress w' = w_progress w
    ∧ w_polls w' = S (w_polls w).
Proof.
  intros Hl Hs Htypes Hk Hfeatures Hc.
  destruct (declared_fields_is_Some schema [] Htypes) as [tf Htf].
  destruct (defaults_for_section_ok (Geometry := Geometry) registry _ schema Hs)
    as [d Hd].
  exists tf, d. eexists. split; [by apply process_run |].
  unfold world_after_run, progress_reports.
  cbn [w_written w_polls w_progress]. rewrite Hfeatures.
  cbn [length features_written features_reported]. rewrite Hc.
  repeat split.
  - destruct (int_truthy (l_featureCount layer)); cbn; by rewrite app_nil_r.
  - lia.
Qed.

(** X12 — Progress is reported after the poll, so the feature at which the
    cancellation is seen is written but not reported: when the
    cancellation is first seen at the poll following the [k]-th feature,
    the run has polled [k] times and, for a non-zero feature count,
    reported progress [k - 1] times. *)
Theorem cancelled_feature_is_not_reported registry
    (self : SwmmLayerBuilderAlgorithm) (parameters : Parameters Geometry)
    (feedback : Feedback) (layer : QgsVectorLayer Geometry)
    (schema : list (string * string)) (dest_id : string) (k : nat) w :
  par_layer parameters = Some layer →
  registry !! section_key self = Some schema →
  Forall (λ typ, is_Some (type_map !! typ)) schema.*2 →
  par_sink parameters = Some dest_id →
  l_featureCount layer ≠ 0%Z →
  0 < k → k ≤ length (l_features layer) →
  (∀ j, S j < k → canceled_at feedback (w_polls w + j) = false) →
  canceled_at feedback (w_polls w + pred k) = true →
  let w' := (processAlgorithm translate registry self parameters feedback
               w).2 in
  w_polls w' = w_polls w + k
  ∧ w_progress w'
    = w_progress w
      ++ map (λ idx, progress_value idx (l_featureCount layer))
           (seq 0 (pred k)).
Proof.
  intros Hl Hs Htypes Hk Hcount Hpos Hle Hbefore Hat w'. subst w'.
  destruct (declared_fields_is_Some schema [] Htypes) as [tf Htf].
  destruct (defaults_for_section_ok (Geometry := Geometry) registry _ schema Hs)
    as [d Hd].
  destruct (features_written_cancel feedback (w_polls w)
              (length (l_features layer)) k) as [Hn Hr]; [done .. |].
  rewrite (process_run translate registry self parameters feedback layer
             schema tf dest_id d) by done.
  unfold world_after_run, progress_reports, int_truthy.
  cbn [snd w_polls w_progress]. rewrite Hn, Hr.
  by destruct (Z.eqb_spec (l_featureCount layer) 0).
Qed.

(** ** Set-up *)

(** X13 — A run is all or nothing at set-up: when it raises, the world is
    exactly as before (no sink, no feature, no progress report, no poll);
    when it returns, the result is [{OUTPUT: dest_id}] for the destination
    the host handed out, the sink was created with the input layer's
    geometry type and coordinate reference system, and what the sink held
    before is still there, in front. *)
Theorem run_fails_untouched_or_creates_sink registry
    (self : SwmmLayerBuilderAlgorithm) (parameters : Parameters Geometry)
    (feedback : Feedback) w :
  let run := processAlgorithm translate registry self parameters feedback w in
  match run.1 with
  | inl _ => run.2 = w
  | inr result =>
      ∃ layer target_fields dest_id,
        par_layer parameters = Some layer
        ∧ par_sink parameters = Some dest_id
        ∧ result = py_dict [(OUTPUT, dest_id)]
        ∧ w_sink run.2
          = Some {| sink_fields := target_fields;
                    sink_wkbType := l_wkbType layer;
                    sink_crs := l_sourceCrs layer |}
        ∧ w_written w `prefix_of` w_written run.2
  end.
Proof.
  cbn zeta.
  destruct (process_cases translate registry self parameters feedback w)
    as [(e & _ & ->) | (layer & schema & tf & dest & d & Hl & _ & _ & Hk & _
                        & ->)]; cbn [fst snd]; [done |].
  exists layer, tf, dest. repeat split; [done .. |].
  unfold world_after_run. cbn [w_written]. by eexists.
Qed.

(** X14 — A registry entry with a type name other than Double, String,
    Int, Bool, Date and Time makes the run raise [KeyError] on such a type
    name while it builds the output fields, before the sink is created. *)
Theorem unknown_type_name_is_fatal registry
    (self : SwmmLayerBuilderAlgorithm) (parameters : Parameters Geometry)
    (feedback : Feedback) (layer : QgsVectorLayer Geometry)
    (schema : list (string * string)) (typ : string) w :
  par_layer parameters = Some layer →
  registry !! section_key self = Some schema →
  typ ∈ schema.*2 →
  typ ∉ known_type_names →
  ∃ typ', typ' ∈ schema.*2 ∧ (typ' ∉ known_type_names)
          ∧ processAlgorithm translate registry self parameters feedback w
            = (inl (KeyError typ'), w).
Proof.
  intros Hl Hs Hin Hunknown.
  destruct (declared_fields schema []) as [tf |] eqn:Htf.
  - apply declared_fields_Some_types in Htf.
    exfalso. apply Hunknown, type_map_known.
    by apply (proj1 (Forall_forall _ _) Htf).
  - destruct (process_unknown_type translate registry self parameters
                feedback layer schema w Hl Hs Htf)
      as (typ' & Hin' & Hnone & Hrun).
    exists typ'. repeat split; [done | | done].
    intros Hknown. apply type_map_known in Hknown as [? ?]. congruence.
Qed.

(** X15 — The output fields follow the registry entry item by item: same
    name, and as type the [QVariant] tag [type_map] gives for the item's
    type name; the sink is created with these fields and every written
    feature carries them. *)
Theorem output_fields_follow_registry registry
    (self : SwmmLayerBuilderAlgorithm) (parameters : Parameters Geometry)
    (feedback : Feedback) (layer : QgsVectorLayer Geometry)
    (schema : list (string * string)) (dest_id : string) w :
  par_layer parameters = Some layer →
  registry !! section_key self = Some schema →
  NoDup schema.*1 →
  Forall (λ typ, is_Some (type_map !! typ)) schema.*2 →
  par_sink parameters = Some dest_id →
  let w' := (processAlgorithm translate registry self parameters feedback
               w).2 in
  ∃ target_fields,
    Forall2 (λ item f, f.1 = item.1 ∧ type_map !! item.2 = Some f.2)
            schema target_fields
    ∧ sink_fields <$> w_sink w' = Some target_fields
    ∧ Forall (λ o, o_fields o = target_fields)
             (drop (length (w_written w)) (w_written w')).
Proof.
  intros Hl Hs Hnd Htypes Hk w'. subst w'.
  destruct (declared_fields_is_Some schema [] Htypes) as [tf Htf].
  destruct (defaults_for_section_ok (Geometry := Geometry) registry _ schema Hs)
    as [d Hd].
  destruct (declared_fields_typed schema [] tf Hnd Htf)
    as (typed & -> & Htyped).
  rewrite (process_run translate registry self parameters feedback layer
             schema typed dest_id d) by done.
  exists typed. split; [done |]. split; [done |].
  unfold world_after_run. cbn [snd w_written].
  rewrite drop_app_length. apply Forall_fmap, Forall_forall. done.
Qed.

(** ** The slot tables *)

(** X16 — In every section the label of a slot is the name of its target
    field followed by " field", so the operator is asked for a field under
    the name it will have in the output. *)
Theorem slot_labels_name_the_target (section : string)
    (slot : string * string * string * bool) :
  slot ∈ _field_definitions section →
  slot_label slot = slot_target_field slot +:+ " field".
Proof.
  intros Hslot.
  enough (Forall (λ slot, slot_label slot = slot_target_field slot +:+ " field")
                 (_field_definitions section)) as Hall
    by (by apply (proj1 (Forall_forall _ _) Hall)).
  clear. unfold _field_definitions.
  section_cases section; apply (bool_decide_unpack _); by vm_compute.
Qed.

(** X17 — [field_map] has an entry for exactly the target fields of the
    section's slots, whatever the operator chose and whatever fields the
    layer has: every other field of the output has no selection. *)
Theorem field_map_has_the_slot_targets
    (section display_name geom : string) (parameters : Parameters Geometry)
    (layer_field_names : list string) (target : string) :
  is_Some (build_field_map
             (new_SwmmLayerBuilderAlgorithm section display_name geom)
             parameters layer_field_names !! target)
  ↔ target ∈ slot_target_field <$> _field_definitions section.
Proof.
  split.
  - intros Hsome.
    destruct (decide (target ∈ slot_target_field
                               <$> _field_definitions section))
      as [Hin | Hout]; [done |].
    rewrite (build_field_map_no_slot
               (new_SwmmLayerBuilderAlgorithm section display_name geom)
               parameters layer_field_names target Hout) in Hsome.
    by destruct Hsome.
  - intros Hin. apply list_elem_of_fmap in Hin
      as ([[[param_id label] target'] required] & -> & Hin).
    unfold slot_target_field. cbn [fst snd].
    rewrite (build_field_map_refines_resolve section display_name geom
               parameters layer_field_names param_id label target' required
               Hin).
    by eexists.
Qed.

End More.

(** ** The further properties on sample data *)

Lemma defaults_for_section_registry_use_witness :
  ("JUNCTIONS" ∈ bespoke_sections
   ∧ _defaults_for_section Sample.registry "JUNCTIONS" (@initial_world string)
     = _defaults_for_section ∅ "JUNCTIONS" initial_world)
  ∧ (("OUTLET" ∉ bespoke_sections)
     ∧ Sample.registry !! "OUTLET" = None
     ∧ _defaults_for_section Sample.registry "OUTLET" (@initial_world string)
       = (inl (KeyError "OUTLET"), initial_world))
  ∧ (("OUTLETS" ∉ bespoke_sections)
     ∧ Sample.registry !! "OUTLETS" = Some Sample.outlets
     ∧ ∃ defaults,
         _defaults_for_section Sample.registry "OUTLETS"
           (@initial_world string) = (inr defaults, initial_world)
         ∧ ∀ field, is_Some (defaults !! field) ↔ field ∈ Sample.outlets.*1).
Proof.
  pose proof (defaults_for_section_registry_use (Geometry := string))
    as (Hliteral & Hmissing & Hderived).
  split; [| split].
  - assert ("JUNCTIONS" ∈ bespoke_sections) as H1
      by (apply (bool_decide_unpack _); vm_compute; reflexivity).
    split; [exact H1 |].
    exact (proj2 (Hliteral Sample.registry ∅ "JUNCTIONS" initial_world H1)).
  - assert ("OUTLET" ∉ bespoke_sections) as H1
      by (apply (bool_decide_unpack _); vm_compute; reflexivity).
    assert (Sample.registry !! "OUTLET" = None) as H2
      by (vm_compute; reflexivity).
    split; [exact H1 |]. split; [exact H2 |].
    exact (Hmissing Sample.registry "OUTLET" initial_world H1 H2).
  - assert ("OUTLETS" ∉ bespoke_sections) as H1
      by (apply (bool_decide_unpack _); vm_compute; reflexivity).
    assert (Sample.registry !! "OUTLETS" = Some Sample.outlets) as H2
      by (vm_compute; reflexivity).
    split; [exact H1 |]. split; [exact H2 |].
    exact (Hderived Sample.registry "OUTLETS" Sample.outlets initial_world
             H1 H2).
Defined.

Lemma mapped_fields_have_defaults_witness :
  "OUTFALLS" ≠ "STORAGE"
  ∧ ("FIXED_FIELD", "FixedStage field", "FixedStage", false)
      ∈ _field_definitions "OUTFALLS"
  ∧ _defaults_for_section Sample.registry "OUTFALLS" (@initial_world string)
    = (inr (Sample.defaults_of "OUTFALLS"), initial_world)
  ∧ is_Some (Sample.defaults_of "OUTFALLS" !! "FixedStage").
Proof.
  assert ("OUTFALLS" ≠ "STORAGE") as H1 by discriminate.
  assert (("FIXED_FIELD", "FixedStage field", "FixedStage", false)
            ∈ _field_definitions "OUTFALLS") as H2
    by (apply (bool_decide_unpack _); vm_compute; reflexivity).
  assert (_defaults_for_section Sample.registry "OUTFALLS"
            (@initial_world string)
          = (inr (Sample.defaults_of "OUTFALLS"), initial_world)) as H3
    by reflexivity.
  split; [exact H1 |]. split; [exact H2 |]. split; [exact H3 |].
  exact (mapped_fields_have_defaults Sample.registry "OUTFALLS"
           (Sample.defaults_of "OUTFALLS")
           ("FIXED_FIELD", "FixedStage field", "FixedStage", false)
           initial_world H1 H2 H3).
Defined.

Lemma initAlgorithm_declares_every_slot_witness :
  "Point" ∈ supported_geom_types
  ∧ initAlgorithm Sample.translate Sample.junctions_builder []
    = (inr tt,
       [QgsProcessingParameterVectorLayer "INPUT_LAYER" "Input Point layer"
          [TypeVectorPoint];
        QgsProcessingParameterVectorDestination "OUTPUT" "SWMM layer output";
        QgsProcessingParameterField "NAME_FIELD" "Name field" "INPUT_LAYER"
          false "Name";
        QgsProcessingParameterField "ELEV_FIELD" "Elevation field"
          "INPUT_LAYER" false "Elevation";
        QgsProcessingParameterField "MAXDEPTH_FIELD" "MaxDepth field"
          "INPUT_LAYER" false "MaxDepth";
        QgsProcessingParameterField "INITDEPTH_FIELD" "InitDepth field"
          "INPUT_LAYER" true "InitDepth";
        QgsProcessingParameterField "SURDEPTH_FIELD" "SurDepth field"
          "INPUT_LAYER" true "SurDepth";
        QgsProcessingParameterField "APONDED_FIELD" "Aponded field"
          "INPUT_LAYER" true "Aponded"]).
Proof.
  assert ("Point" ∈ supported_geom_types) as H1
    by (apply (bool_decide_unpack _); vm_compute; reflexivity).
  split; [exact H1 |].
  destruct (initAlgorithm_declares_every_slot Sample.translate "JUNCTIONS"
              "Junctions" "Point" H1)
    as (types & declared & Htypes & Hrun & Hdeclared & _).
  unfold Sample.junctions_builder. rewrite Hrun, Hdeclared.
  vm_compute in Htypes. injection Htypes as <-. reflexivity.
Defined.

Lemma process_reads_slot_parameters_only_witness :
  par_layer (Sample.nodes_run Sample.ten_nodes) = par_layer Fixture.noisy_run
  ∧ par_sink (Sample.nodes_run Sample.ten_nodes) = par_sink Fixture.noisy_run
  ∧ (∀ slot, slot ∈ field_params Sample.junctions_builder →
       par_string (Sample.nodes_run Sample.ten_nodes) (slot_param_id slot)
       = par_string Fixture.noisy_run (slot_param_id slot))
  ∧ par_string (Sample.nodes_run Sample.ten_nodes) "UNDECLARED"
    ≠ par_string Fixture.noisy_run "UNDECLARED"
  ∧ processAlgorithm Sample.translate Sample.registry
      Sample.junctions_builder (Sample.nodes_run Sample.ten_nodes)
      Sample.never_canceled initial_world
    = processAlgorithm Sample.translate Sample.registry
        Sample.junctions_builder Fixture.noisy_run
        Sample.never_canceled initial_world.
Proof.
  assert (∀ slot, slot ∈ field_params Sample.junctions_builder →
            par_string (Sample.nodes_run Sample.ten_nodes) (slot_param_id slot)
            = par_string Fixture.noisy_run (slot_param_id slot)) as H3.
  { apply Forall_forall, (bool_decide_unpack _). vm_compute. reflexivity. }
  split; [reflexivity |]. split; [reflexivity |]. split; [exact H3 |].
  split; [discriminate |].
  exact (process_reads_slot_parameters_only Sample.translate Sample.registry
           Sample.junctions_builder (Sample.nodes_run Sample.ten_nodes)
           Fixture.noisy_run Sample.never_canceled initial_world
           eq_refl eq_refl H3).
Defined.

Lemma process_ignores_labels_and_required_flags_witness :
  section_key Sample.junctions_builder
  = section_key Fixture.junctions_relabelled
  ∧ (λ slot, (slot_param_id slot, slot_target_field slot))
      <$> field_params Sample.junctions_builder
    = (λ slot, (slot_param_id slot, slot_target_field slot))
        <$> field_params Fixture.junctions_relabelled
  ∧ field_params Sample.junctions_builder
    ≠ field_params Fixture.junctions_relabelled
  ∧ processAlgorithm Sample.translate Sample.registry
      Sample.junctions_builder (Sample.nodes_run Sample.ten_nodes)
      Sample.canceled_from_third initial_world
    = processAlgorithm Sample.translate Sample.registry
        Fixture.junctions_relabelled (Sample.nodes_run Sample.ten_nodes)
        Sample.canceled_from_third initial_world.
Proof.
  split; [reflexivity |]. split; [reflexivity |]. split; [discriminate |].
  exact (process_ignores_labels_and_required_flags Sample.translate
           Sample.registry Sample.junctions_builder
           Fixture.junctions_relabelled (Sample.nodes_run Sample.ten_nodes)
           Sample.canceled_from_third initial_world eq_refl eq_refl).
Defined.

Lemma explicit_choice_is_taken_as_is_witness :
  ("ELEV_FIELD", "Elevation field", "Elevation", true)
    ∈ field_params Sample.junctions_builder
  ∧ par_string Fixture.height_run "ELEV_FIELD" ≠ ""
  ∧ "Elevation" ∈ l_field_names (Sample.nodes_layer Sample.ten_nodes)
  ∧ build_field_map Sample.junctions_builder Fixture.height_run
      (l_field_names (Sample.nodes_layer Sample.ten_nodes)) !! "Elevation"
    = Some "height"
  ∧ Sample.junctions.*1 !! 1 = Some "Elevation"
  ∧ ("height" ∉ f_field_names (Sample.node "n0" (PyFloat 5.2) "POINT(0 0)"))
  ∧ ∃ attrs,
      row_attributes (Sample.node "n0" (PyFloat 5.2) "POINT(0 0)")
        (build_field_map Sample.junctions_builder Fixture.height_run
           (l_field_names (Sample.nodes_layer Sample.ten_nodes)))
        (Sample.defaults_of "JUNCTIONS") Sample.junctions initial_world
      = (inr attrs, initial_world)
      ∧ attrs !! 1 = Some (PyInt 0).
Proof.
  assert (("ELEV_FIELD", "Elevation field", "Elevation", true)
            ∈ field_params Sample.junctions_builder) as H1
    by (apply (bool_decide_unpack _); vm_compute; reflexivity).
  assert (par_string Fixture.height_run "ELEV_FIELD" ≠ "") as H2
    by discriminate.
  assert ("Elevation" ∈ l_field_names (Sample.nodes_layer Sample.ten_nodes))
    as H3 by (apply (bool_decide_unpack _); vm_compute; reflexivity).
  assert (Sample.junctions.*1 !! 1 = Some "Elevation") as H5 by reflexivity.
  assert ("height" ∉ f_field_names (Sample.node "n0" (PyFloat 5.2)
                                      "POINT(0 0)")) as H6
    by (apply (bool_decide_unpack _); vm_compute; reflexivity).
  destruct (explicit_choice_is_taken_as_is "JUNCTIONS" "Junctions" "Point"
              Fixture.height_run
              (l_field_names (Sample.nodes_layer Sample.ten_nodes))
              "ELEV_FIELD" "Elevation field" "Elevation" true H1 H2)
    as [Hfm Hrow].
  split; [exact H1 |]. split; [exact H2 |]. split; [exact H3 |].
  split; [exact Hfm |]. split; [exact H5 |]. split; [exact H6 |].
  destruct (Hrow (Sample.node "n0" (PyFloat 5.2) "POINT(0 0)")
              (Sample.defaults_of "JUNCTIONS") Sample.junctions 1
              initial_world H5 H6) as (attrs & Hattrs & Hj).
  exists attrs. split; [exact Hattrs |]. rewrite Hj. vm_compute. reflexivity.
Defined.

Lemma fields_without_slot_take_default_witness :
  Fixture.registry !! section_key Fixture.subcatchments_builder
  = Some Fixture.subcatchments
  ∧ Fixture.subcatchments.*1 !! 4 = Some "Slope"
  ∧ ("Slope" ∉ slot_target_field
                 <$> field_params Fixture.subcatchments_builder)
  ∧ Forall (λ o, o_attributes o !! 4 = Some (PyFloat 0.5))
      (w_written
         (processAlgorithm Sample.translate Fixture.registry
            Fixture.subcatchments_builder (Sample.nodes_run Sample.ten_nodes)
            Sample.never_canceled initial_world).2).
Proof.
  assert (Fixture.registry !! section_key Fixture.subcatchments_builder
          = Some Fixture.subcatchments) as H1 by (vm_compute; reflexivity).
  assert (Fixture.subcatchments.*1 !! 4 = Some "Slope") as H2 by reflexivity.
  assert ("Slope" ∉ slot_target_field
                      <$> field_params Fixture.subcatchments_builder) as H3
    by (apply (bool_decide_unpack _); vm_compute; reflexivity).
  split; [exact H1 |]. split; [exact H2 |]. split; [exact H3 |].
  destruct (fields_without_slot_take_default Sample.translate
              Fixture.registry Fixture.subcatchments_builder
              (Sample.nodes_run Sample.ten_nodes) Sample.never_canceled
              Fixture.subcatchments 4 "Slope" H1 H2 H3)
    as (defaults & Hd & Hall).
  eapply Forall_impl; [exact Hall |]. intros o Ho. rewrite Ho. f_equal.
  pose proof (Hd initial_world) as Hd0.
  change (_defaults_for_section Fixture.registry
            (section_key Fixture.subcatchments_builder) initial_world)
    with (inr (B:=gmap string PyVal) (A:=PyExc)
              (Sample.defaults_of "SUBCATCHMENTS"), @initial_world string)
    in Hd0.
  injection Hd0 as <-. vm_compute. reflexivity.
Defined.

Lemma uncancelled_run_writes_every_feature_witness :
  par_layer Fixture.uncounted_run = Some Fixture.uncounted_layer
  ∧ l_featureCount Fixture.uncounted_layer = 0%Z
  ∧ Sample.registry !! "JUNCTIONS" = Some Sample.junctions
  ∧ Forall (λ typ, is_Some (type_map !! typ)) Sample.junctions.*2
  ∧ par_sink Fixture.uncounted_run = Some "memory:junctions"
  ∧ (∀ j, j < length (l_features Fixture.uncounted_layer) →
          canceled_at Sample.never_canceled
            (w_polls (@initial_world string) + j) = false)
  ∧ ∃ w',
      processAlgorithm Sample.translate Sample.registry
        Sample.junctions_builder Fixture.uncounted_run Sample.never_canceled
        initial_world
      = (inr (py_dict [("OUTPUT", "memory:junctions")]), w')
      ∧ length (w_written w') = 10
      ∧ w_polls w' = 10
      ∧ length (w_progress w') = 0.
Proof.
  assert (Sample.registry !! "JUNCTIONS" = Some Sample.junctions) as H2
    by (vm_compute; reflexivity).
  assert (Forall (λ typ, is_Some (type_map !! typ)) Sample.junctions.*2)
    as H3 by (apply (bool_decide_unpack _); vm_compute; reflexivity).
  assert (∀ j, j < length (l_features Fixture.uncounted_layer) →
               canceled_at Sample.never_canceled
                 (w_polls (@initial_world string) + j) = false) as H5
    by (intros j _; reflexivity).
  split; [reflexivity |]. split; [reflexivity |]. split; [exact H2 |].
  split; [exact H3 |]. split; [reflexivity |]. split; [exact H5 |].
  destruct (uncancelled_run_writes_every_feature Sample.translate
              Sample.registry Sample.junctions_builder Fixture.uncounted_run
              Sample.never_canceled Fixture.uncounted_layer Sample.junctions
              "memory:junctions" initial_world eq_refl H2 H3 eq_refl H5)
    as (tf & d & w' & Hrun & Hwritten & Hpolls & Hprogress).
  exists w'. split; [exact Hrun |].
  rewrite Hwritten, Hpolls, Hprogress. repeat split.
Defined.

Lemma pending_cancellation_writes_first_feature_witness :
  par_layer (Sample.nodes_run Sample.ten_nodes)
  = Some (Sample.nodes_layer Sample.ten_nodes)
  ∧ Sample.registry !! "JUNCTIONS" = Some Sample.junctions
  ∧ Forall (λ typ, is_Some (type_map !! typ)) Sample.junctions.*2
  ∧ par_sink (Sample.nodes_run Sample.ten_nodes) = Some "memory:junctions"
  ∧ l_features (Sample.nodes_layer Sample.ten_nodes)
    = Sample.node "n0" (PyFloat 5.2) "POINT(0 0)" :: tail Sample.ten_nodes
  ∧ canceled_at Fixture.always_canceled (w_polls (@initial_world string))
    = true
  ∧ ∃ w',
      processAlgorithm Sample.translate Sample.registry
        Sample.junctions_builder (Sample.nodes_run Sample.ten_nodes)
        Fixture.always_canceled initial_world
      = (inr (py_dict [("OUTPUT", "memory:junctions")]), w')
      ∧ o_attributes <$> w_written w'
        = [[PyStr "n0"; PyFloat 5.2; PyInt 0; PyInt 0; PyInt 0; PyInt 0]]
      ∧ w_progress w' = []
      ∧ w_polls w' = 1.
Proof.
  assert (Sample.registry !! "JUNCTIONS" = Some Sample.junctions) as H2
    by (vm_compute; reflexivity).
  assert (Forall (λ typ, is_Some (type_map !! typ)) Sample.junctions.*2)
    as H3 by (apply (bool_decide_unpack _); vm_compute; reflexivity).
  split; [reflexivity |]. split; [exact H2 |]. split; [exact H3 |].
  split; [reflexivity |]. split; [reflexivity |]. split; [reflexivity |].
  destruct (pending_cancellation_writes_first_feature Sample.translate
              Sample.registry Sample.junctions_builder
              (Sample.nodes_run Sample.ten_nodes) Fixture.always_canceled
              (Sample.nodes_layer Sample.ten_nodes) Sample.junctions
              "memory:junctions"
              (Sample.node "n0" (PyFloat 5.2) "POINT(0 0)")
              (tail Sample.ten_nodes) initial_world
              eq_refl H2 H3 eq_refl eq_refl eq_refl)
    as (tf & d & w' & Hrun & Hwritten & Hprogress & Hpolls).
  exists w'. split; [exact Hrun |].
  assert (Hw := f_equal snd Hrun). cbn [snd] in Hw. subst w'.
  repeat split; vm_compute; reflexivity.
Defined.

Lemma cancelled_feature_is_not_reported_witness :
  par_layer (Sample.nodes_run Sample.ten_nodes)
  = Some (Sample.nodes_layer Sample.ten_nodes)
  ∧ Sample.registry !! "JUNCTIONS" = Some Sample.junctions
  ∧ Forall (λ typ, is_Some (type_map !! typ)) Sample.junctions.*2
  ∧ par_sink (Sample.nodes_run Sample.ten_nodes) = Some "memory:junctions"
  ∧ l_featureCount (Sample.nodes_layer Sample.ten_nodes) ≠ 0%Z
  ∧ 0 < 3
  ∧ 3 ≤ length (l_features (Sample.nodes_layer Sample.ten_nodes))
  ∧ (∀ j, S j < 3 →
          canceled_at Sample.canceled_from_third
            (w_polls (@initial_world string) + j) = false)
  ∧ canceled_at Sample.canceled_from_third
      (w_polls (@initial_world string) + pred 3) = true
  ∧ (let w' :=
       (processAlgorithm Sample.translate Sample.registry
          Sample.junctions_builder (Sample.nodes_run Sample.ten_nodes)
          Sample.canceled_from_third initial_world).2 in
     w_polls w' = 3 ∧ w_progress w' = [10%Z; 20%Z]).
Proof.
  assert (Sample.registry !! "JUNCTIONS" = Some Sample.junctions) as H2
    by (vm_compute; reflexivity).
  assert (Forall (λ typ, is_Some (type_map !! typ)) Sample.junctions.*2)
    as H3 by (apply (bool_decide_unpack _); vm_compute; reflexivity).
  assert (l_featureCount (Sample.nodes_layer Sample.ten_nodes) ≠ 0%Z) as H5
    by discriminate.
  assert (0 < 3) as H6 by lia.
  assert (3 ≤ length (l_features (Sample.nodes_layer Sample.ten_nodes)))
    as H7 by (simpl; lia).
  assert (∀ j, S j < 3 →
               canceled_at Sample.canceled_from_third
                 (w_polls (@initial_world string) + j) = false) as H8.
  { intros [| [| j]] Hj; [reflexivity | reflexivity | lia]. }
  split; [reflexivity |]. split; [exact H2 |]. split; [exact H3 |].
  split; [reflexivity |]. split; [exact H5 |]. split; [exact H6 |].
  split; [exact H7 |]. split; [exact H8 |]. split; [reflexivity |].
  destruct (cancelled_feature_is_not_reported Sample.translate
              Sample.registry Sample.junctions_builder
              (Sample.nodes_run Sample.ten_nodes) Sample.canceled_from_third
              (Sample.nodes_layer Sample.ten_nodes) Sample.junctions
              "memory:junctions" 3 initial_world
              eq_refl H2 H3 eq_refl H5 H6 H7 H8 eq_refl)
    as [Hpolls Hprogress].
  cbn zeta. rewrite Hpolls, Hprogress. split; [reflexivity |].
  vm_compute. reflexivity.
Defined.

Lemma unknown_type_name_is_fatal_witness :
  par_layer (Sample.nodes_run Sample.ten_nodes)
  = Some (Sample.nodes_layer Sample.ten_nodes)
  ∧ Fixture.registry !! section_key Fixture.pumps_builder
    = Some [("Name", "String"); ("Startup", "Float")]
  ∧ "Float" ∈ [("Name", "String"); ("Startup", "Float")].*2
  ∧ ("Float" ∉ known_type_names)
  ∧ processAlgorithm Sample.translate Fixture.registry Fixture.pumps_builder
      (Sample.nodes_run Sample.ten_nodes) Sample.never_canceled initial_world
    = (inl (KeyError "Float"), initial_world).
Proof.
  assert (Fixture.registry !! section_key Fixture.pumps_builder
          = Some [("Name", "String"); ("Startup", "Float")]) as H2
    by (vm_compute; reflexivity).
  assert ("Float" ∈ [("Name", "String"); ("Startup", "Float")].*2) as H3
    by (apply (bool_decide_unpack _); vm_compute; reflexivity).
  assert ("Float" ∉ known_type_names) as H4
    by (apply (bool_decide_unpack _); vm_compute; reflexivity).
  split; [reflexivity |]. split; [exact H2 |]. split; [exact H3 |].
  split; [exact H4 |].
  destruct (unknown_type_name_is_fatal Sample.translate Fixture.registry
              Fixture.pumps_builder (Sample.nodes_run Sample.ten_nodes)
              Sample.never_canceled (Sample.nodes_layer Sample.ten_nodes)
              [("Name", "String"); ("Startup", "Float")] "Float"
              initial_world eq_refl H2 H3 H4)
    as (typ' & Hin & Hunknown & Hrun).
  rewrite Hrun. f_equal. f_equal. f_equal.
  apply elem_of_cons in Hin as [-> | Hin].
  - exfalso. apply Hunknown, (bool_decide_unpack _). vm_compute. reflexivity.
  - apply list_elem_of_singleton in Hin. exact Hin.
Defined.

Lemma output_fields_follow_registry_witness :
  par_layer (Sample.nodes_run Sample.ten_nodes)
  = Some (Sample.nodes_layer Sample.ten_nodes)
  ∧ Sample.registry !! "JUNCTIONS" = Some Sample.junctions
  ∧ NoDup Sample.junctions.*1
  ∧ Forall (λ typ, is_Some (type_map !! typ)) Sample.junctions.*2
  ∧ par_sink (Sample.nodes_run Sample.ten_nodes) = Some "memory:junctions"
  ∧ (let w' :=
       (processAlgorithm Sample.translate Sample.registry
          Sample.junctions_builder (Sample.nodes_run Sample.ten_nodes)
          Sample.never_canceled initial_world).2 in
     ∃ target_fields,
       Forall2 (λ item f, f.1 = item.1 ∧ type_map !! item.2 = Some f.2)
               Sample.junctions target_fields
       ∧ sink_fields <$> w_sink w' = Some target_fields
       ∧ Forall (λ o, o_fields o = target_fields)
                (drop (length (w_written (@initial_world string)))
                      (w_written w'))).
Proof.
  assert (Sample.registry !! "JUNCTIONS" = Some Sample.junctions) as H2
    by (vm_compute; reflexivity).
  assert (NoDup Sample.junctions.*1) as H3
    by (apply (bool_decide_unpack _); vm_compute; reflexivity).
  assert (Forall (λ typ, is_Some (type_map !! typ)) Sample.junctions.*2)
    as H4 by (apply (bool_decide_unpack _); vm_compute; reflexivity).
  split; [reflexivity |]. split; [exact H2 |]. split; [exact H3 |].
  split; [exact H4 |]. split; [reflexivity |].
  exact (output_fields_follow_registry Sample.translate Sample.registry
           Sample.junctions_builder (Sample.nodes_run Sample.ten_nodes)
           Sample.never_canceled (Sample.nodes_layer Sample.ten_nodes)
           Sample.junctions "memory:junctions" initial_world
           eq_refl H2 H3 H4 eq_refl).
Defined.

Lemma slot_labels_name_the_target_witness :
  ("CREST_FIELD", "CrestHeigh field", "CrestHeigh", false)
    ∈ _field_definitions "WEIRS"
  ∧ slot_label ("CREST_FIELD", "CrestHeigh field", "CrestHeigh", false)
    = slot_target_field
        ("CREST_FIELD", "CrestHeigh field", "CrestHeigh", false)
      +:+ " field".
Proof.
  assert (("CREST_FIELD", "CrestHeigh field", "CrestHeigh", false)
            ∈ _field_definitions "WEIRS") as H1
    by (apply (bool_decide_unpack _); vm_compute; reflexivity).
  split; [exact H1 |].
  exact (slot_labels_name_the_target "WEIRS"
           ("CREST_FIELD", "CrestHeigh field", "CrestHeigh", false) H1).
Defined.
